(** * SyncApp server: record store, connection manager and sync session

    A shallow embedding of [src/server/server.py]: the versioned record
    table, the [ConnectionManager] (live connections and device registry),
    the REST handlers [create_data], [update_data], [delete_data] and the
    body of [websocket_endpoint], followed by the properties the design
    document states about them.

    Conventions of the embedding.
    - JSON payloads are Python values ([json]); a Python [dict] is an
      insertion-ordered association list read by first match.
    - Python floats are IEEE 754 binary64 numbers, [spec_float] at
      precision 53 and maximal exponent 1024.
    - The [records] table is a finite map from primary key to row; a row
      keeps the Python values assigned to its attributes.
    - The handlers run one at a time (no interleaving at [await]).
    - The wall clock, the UUID generator and the outcome of each
      [send_json] are oracles indexed by the number of earlier calls. *)

From Stdlib Require Import ZArith String List Bool Lia Sorted.
From Stdlib Require Import Floats.SpecFloat.
From stdpp Require Import gmap strings list.

Local Open Scope string_scope.
Local Open Scope Z_scope.

(** ** Python values *)

#[warnings="-register-all"]
Inductive json : Type :=
| JNull
| JBool (b : bool)
| JInt (z : Z)
| JFloat (f : spec_float)
| JStr (s : string)
| JList (l : list json)
| JObj (kvs : list (string * json)).

Inductive exn : Type :=
| KeyError (key : string)
| TypeError
| AttributeError
| OverflowError
| IntegrityError
| InterfaceError
| HTTPException (status_code : Z) (detail : string)
| WebSocketDisconnect
| SendError.

Inductive Res (A : Type) : Type :=
| Ok (a : A)
| Raise (e : exn).
Arguments Ok {A} a.
Arguments Raise {A} e.

(** ** Insertion-ordered dictionaries *)

Module PyDict.
Section Dict.
Context {V : Type}.

Fixpoint get (k : string) (d : list (string * V)) : option V :=
match d with
| [] => None
| (k', v) :: d' => if String.eqb k' k then Some v else get k d'
end.

Definition mem (k : string) (d : list (string * V)) : bool :=
match get k d with Some _ => true | None => false end.

(** [d[k] = v]: an existing key keeps its position, a new key goes last. *)
Fixpoint set (k : string) (v : V) (d : list (string * V)) : list (string * V) :=
match d with
| [] => [(k, v)]
| (k', v') :: d' =>
    if String.eqb k' k then (k, v) :: d' else (k', v') :: set k v d'
end.

(** The entries left by [del d[k]]. *)
Fixpoint remove (k : string) (d : list (string * V)) : list (string * V) :=
match d with
| [] => []
| (k', v) :: d' =>
    if String.eqb k' k then remove k d' else (k', v) :: remove k d'
end.

(** [del d[k]] raises [KeyError] on a missing key. *)
Definition del (k : string) (d : list (string * V)) : Res (list (string * V)) :=
if mem k d then Ok (remove k d) else Raise (KeyError k).

Definition keys (d : list (string * V)) : list string := map fst d.
End Dict.
End PyDict.

(** ** Floats and the Python operators the handlers use *)

Definition prec : Z := 53.
Definition emax : Z := 1024.

(** [float(z)] for a Python int: round to nearest, ties to even. *)
Definition float_of_Z (z : Z) : spec_float := binary_normalize prec emax z 0 false.

(** Exact comparison of a float with an integer, as Python's [==] does. *)
Definition float_eq_Z (f : spec_float) (z : Z) : bool :=
  match f with
  | S754_zero _ => z =? 0
  | S754_finite s m e =>
      let v := cond_Zopp s (Zpos m) in
      if 0 <=? e then v * 2 ^ e =? z else v =? z * 2 ^ (- e)
  | _ => false
  end.

(** [v == z] for a JSON value [v] and an int [z]. *)
Definition py_eq_int (v : json) (z : Z) : bool :=
  match v with
  | JInt n => n =? z
  | JBool b => (if b then 1 else 0) =? z
  | JFloat f => float_eq_Z f z
  | _ => false
  end.

(** [v == s] for a JSON value [v] and a string literal [s]. *)
Definition py_eq_str (v : json) (s : string) : bool :=
  match v with
  | JStr s' => String.eqb s' s
  | _ => false
  end.

(** [o.get(k, default)]: only a dict has the method. *)
Definition py_get (o : json) (k : string) (default : json) : Res json :=
  match o with
  | JObj kvs => Ok (match PyDict.get k kvs with Some v => v | None => default end)
  | _ => Raise AttributeError
  end.

(** [o[k]] with a string key. *)
Definition py_subscript (o : json) (k : string) : Res json :=
  match o with
  | JObj kvs =>
      match PyDict.get k kvs with
      | Some v => Ok v
      | None => Raise (KeyError k)
      end
  | _ => Raise TypeError
  end.

Fixpoint chars (s : string) : list json :=
  match s with
  | EmptyString => []
  | String c s' => JStr (String c EmptyString) :: chars s'
  end.

(** The items [len(o)] counts and [for op in o] visits. *)
Definition py_iter (o : json) : Res (list json) :=
  match o with
  | JList l => Ok l
  | JStr s => Ok (chars s)
  | JObj kvs => Ok (map (fun kv => JStr (fst kv)) kvs)
  | _ => Raise TypeError
  end.

(** [float(abs(v))], the argument [math.sqrt] receives. *)
Definition py_abs_float (v : json) : Res spec_float :=
  match v with
  | JInt z =>
      match float_of_Z (Z.abs z) with
      | S754_infinity _ => Raise OverflowError
      | f => Ok f
      end
  | JBool b => Ok (float_of_Z (if b then 1 else 0))
  | JFloat f => Ok (SFabs f)
  | _ => Raise TypeError
  end.

(** [math.sqrt(abs(v)) * 100]. *)
Definition sqrt_abs_times_100 (v : json) : Res spec_float :=
  match py_abs_float v with
  | Ok f => Ok (SFmul prec emax (SFsqrt prec emax f) (float_of_Z 100))
  | Raise e => Raise e
  end.

(** Truth value of the [exclude_device] argument ([None] and [""] are false). *)
Definition truthy (s : option string) : bool :=
  match s with
  | Some s' => negb (String.eqb s' "")
  | None => false
  end.

(** ** Data model *)

Record DataRecord : Type := mkRecord {
  id : string;
  title : json;
  value : json;
  computed_result : json;
  created_at : Z;
  updated_at : Z;
  version : Z
}.

(** A registry entry: [{"type": .., "connected_at": .., "last_sync": ..}]. *)
Record DeviceEntry : Type := mkEntry {
  type : json;
  connected_at : Z;
  last_sync : json
}.

(** A [WebSocket] object, identified by the connection it belongs to. *)
Definition WebSocket : Type := nat.

Record ConnectionManager : Type := mkManager {
  active_connections : list (string * WebSocket);
  device_registry : list (string * DeviceEntry)
}.

(** Outbound events, one constructor per ["type"] tag. *)
Inductive Event : Type :=
| device_status (connected_devices : list string) (timestamp : Z)
| sync_response (rows : list DataRecord) (server_time : Z)
| data_created (rid : string) (rtitle rvalue : json) (rversion : option Z)
    (timestamp : option Z)
| data_updated (rid : string) (rtitle rvalue : json)
    (rcomputed : option json) (rversion : Z) (timestamp : option Z)
| data_deleted (record_id : json) (timestamp : option Z)
| compute_result (record_id : json) (result : json) (rversion : Z)
    (timestamp : Z).

(** One [send_json] call: receiver, its socket, the event, and whether the
    transport accepted it. *)
Record Frame : Type := mkFrame {
  to : string;
  socket : WebSocket;
  event : Event;
  delivered : bool
}.

(** The server state together with the trace of what it did. *)
Record World : Type := mkWorld {
  records : gmap string DataRecord;
  manager : ConnectionManager;
  clock_reads : nat;
  uuid_draws : nat;
  send_calls : nat;
  wire : list Frame;
  broadcasts : list (Event * option string)
}.

Record Env : Type := mkEnv {
  utcnow_at : nat -> Z;
  uuid4_at : nat -> string;
  send_ok : nat -> bool
}.

(** ** The monad of handlers: state and exceptions *)

Definition Act (A : Type) : Type := World -> Res A * World.

Definition ret {A} (a : A) : Act A := fun w => (Ok a, w).

Definition bind {A B} (m : Act A) (k : A -> Act B) : Act B :=
  fun w =>
    match m w with
    | (Ok a, w') => k a w'
    | (Raise e, w') => (Raise e, w')
    end.

Definition raise {A} (e : exn) : Act A := fun w => (Raise e, w).

Definition lift {A} (r : Res A) : Act A := fun w => (r, w).

(** [try: m  except Exception: h]. *)
Definition try_except {A} (m : Act A) (h : exn -> Act A) : Act A :=
  fun w =>
    match m w with
    | (Ok a, w') => (Ok a, w')
    | (Raise e, w') => h e w'
    end.

Declare Scope act_scope.
Delimit Scope act_scope with act.
Notation "x <- m ;; k" := (bind m (fun x => k))
  (at level 100, m at next level, right associativity) : act_scope.
Notation "m ;; k" := (bind m (fun _ => k))
  (at level 100, right associativity) : act_scope.
Local Open Scope act_scope.

(** A [for] loop whose body may raise. *)
Fixpoint for_each {A} (body : A -> Act unit) (l : list A) : Act unit :=
  match l with
  | [] => ret tt
  | x :: l' => body x ;; for_each body l'
  end.

Definition set_records (r : gmap string DataRecord) (w : World) : World :=
  mkWorld r (manager w) (clock_reads w) (uuid_draws w) (send_calls w)
    (wire w) (broadcasts w).

Definition set_manager (m : ConnectionManager) (w : World) : World :=
  mkWorld (records w) m (clock_reads w) (uuid_draws w) (send_calls w)
    (wire w) (broadcasts w).

Definition get_default (payload : list (string * json)) (k : string)
    (default : json) : json :=
  match PyDict.get k payload with
  | Some v => v
  | None => default
  end.

(** ** The server *)

Section Server.
Variable env : Env.

(** *** Collaborators: clock, UUIDs, transport, table *)

Definition utcnow : Act Z := fun w =>
  (Ok (utcnow_at env (clock_reads w)),
   mkWorld (records w) (manager w) (S (clock_reads w)) (uuid_draws w)
     (send_calls w) (wire w) (broadcasts w)).

Definition uuid4 : Act string := fun w =>
  (Ok (uuid4_at env (uuid_draws w)),
   mkWorld (records w) (manager w) (clock_reads w) (S (uuid_draws w))
     (send_calls w) (wire w) (broadcasts w)).

(** [await connection.send_json(message)]: raises when the transport fails. *)
Definition send_json (device_id : string) (connection : WebSocket)
    (message : Event) : Act unit := fun w =>
  let ok := send_ok env (send_calls w) in
  ((if ok then Ok tt else Raise SendError),
   mkWorld (records w) (manager w) (clock_reads w) (uuid_draws w)
     (S (send_calls w))
     (wire w ++ [mkFrame device_id connection message ok])
     (broadcasts w)).

(** [db.query(DataRecord).filter(DataRecord.id == k).first()]. A key that
    is a scalar other than a string equals no UUID; a list or a dict
    cannot be bound as a query parameter. *)
Definition query_first (k : json) : Act (option DataRecord) := fun w =>
  match k with
  | JStr s => (Ok (records w !! s), w)
  | JList _ | JObj _ => (Raise InterfaceError, w)
  | _ => (Ok None, w)
  end.

(** [db.query(DataRecord).all()]. *)
Definition query_all : Act (list DataRecord) := fun w =>
  (Ok (map snd (map_to_list (records w))), w).

(** [db.add(record); db.commit()] for a new row: [id] is the primary key. *)
Definition add_commit (record : DataRecord) : Act unit := fun w =>
  match records w !! id record with
  | Some _ => (Raise IntegrityError, w)
  | None => (Ok tt, set_records (<[id record := record]> (records w)) w)
  end.

(** [db.commit()] after attribute assignments on a loaded row. *)
Definition commit (record : DataRecord) : Act unit := fun w =>
  (Ok tt, set_records (<[id record := record]> (records w)) w).

(** [db.delete(record); db.commit()]. *)
Definition delete_commit (record : DataRecord) : Act unit := fun w =>
  (Ok tt, set_records (delete (id record) (records w)) w).

(** [DataRecord(title=.., value=..)] inserted: the column defaults draw the
    id, then [created_at] and [updated_at] (one [utcnow()] call each, in
    column order), and [version = 1]; [computed_result] has no default. *)
Definition insert_record (title0 value0 : json) : Act DataRecord :=
  i <- uuid4 ;;
  c <- utcnow ;;
  u <- utcnow ;;
  let record := mkRecord i title0 value0 JNull c u 1 in
  add_commit record ;;
  ret record.

(** *** ConnectionManager *)

Definition get_manager : Act ConnectionManager := fun w => (Ok (manager w), w).

Definition put_manager (m : ConnectionManager) : Act unit := fun w =>
  (Ok tt, set_manager m w).

Definition disconnect (device_id : string) : Act unit :=
  m <- get_manager ;;
  if PyDict.mem device_id (active_connections m) then
    ac <- lift (PyDict.del device_id (active_connections m)) ;;
    put_manager (mkManager ac (device_registry m)) ;;
    reg <- lift (PyDict.del device_id (device_registry m)) ;;
    put_manager (mkManager ac reg)
  else ret tt.

(** [device_id == exclude_device]. *)
Definition is_excluded (exclude_device : option string) (device_id : string)
    : bool :=
  truthy exclude_device &&
  match exclude_device with
  | Some e => String.eqb device_id e
  | None => false
  end.

(** The first loop of [broadcast]; returns the list [disconnected]. *)
Fixpoint sweep (message : Event) (exclude_device : option string)
    (conns : list (string * WebSocket)) : Act (list string) :=
  match conns with
  | [] => ret []
  | (device_id, connection) :: rest =>
      if is_excluded exclude_device device_id
      then sweep message exclude_device rest
      else
        failed <- try_except
                    (send_json device_id connection message ;; ret [])
                    (fun _ => ret [device_id]) ;;
        more <- sweep message exclude_device rest ;;
        ret (failed ++ more)%list
  end.

(** Trace only: one entry per call of [broadcast]. *)
Definition note_broadcast (message : Event) (exclude_device : option string)
    : Act unit := fun w =>
  (Ok tt,
   mkWorld (records w) (manager w) (clock_reads w) (uuid_draws w)
     (send_calls w) (wire w) (broadcasts w ++ [(message, exclude_device)])).

(** [broadcast] has no [return]: the call evaluates to [None]. *)
Definition broadcast (message : Event) (exclude_device : option string)
    : Act json :=
  note_broadcast message exclude_device ;;
  m <- get_manager ;;
  disconnected <- sweep message exclude_device (active_connections m) ;;
  for_each disconnect disconnected ;;
  ret JNull.

Definition broadcast_status : Act unit :=
  m <- get_manager ;;
  t <- utcnow ;;
  broadcast (device_status (PyDict.keys (device_registry m)) t) None ;;
  ret tt.

(** [accepted] is the outcome of [await websocket.accept()]. *)
Definition connect (websocket : WebSocket) (accepted : bool)
    (device_id : string) : Act unit :=
  (if accepted then ret tt else raise WebSocketDisconnect) ;;
  m <- get_manager ;;
  let ac := PyDict.set device_id websocket (active_connections m) in
  put_manager (mkManager ac (device_registry m)) ;;
  t <- utcnow ;;
  put_manager
    (mkManager ac
       (PyDict.set device_id (mkEntry (JStr "unknown") t JNull)
          (device_registry m))) ;;
  broadcast_status.

Definition send_personal_message (device_id : string) (message : Event)
    : Act unit :=
  m <- get_manager ;;
  match PyDict.get device_id (active_connections m) with
  | Some connection =>
      try_except (send_json device_id connection message)
                 (fun _ => disconnect device_id)
  | None => ret tt
  end.

(** *** REST endpoints *)

Definition get_data : Act (list DataRecord) := query_all.

(** Returns [{"id": .., "version": ..}]. *)
Definition create_data (payload : list (string * json)) : Act (string * Z) :=
  record <- insert_record (get_default payload "title" JNull)
                          (get_default payload "value" (JInt 0)) ;;
  t <- utcnow ;;
  broadcast (data_created (id record) (title record) (value record)
               (Some (version record)) (Some t)) None ;;
  ret (id record, version record).

(** The two bodies [update_data] can return. *)
Inductive UpdateReply : Type :=
| version_conflict (current_version : Z)
| updated (new_version : Z).

Definition stale (client_version : json) (record : DataRecord) : bool :=
  negb (py_eq_int client_version 0) &&
  negb (py_eq_int client_version (version record)).

(** [record.title = ..; record.value = ..; record.computed_result = ..;
    record.version += 1; record.updated_at = ..] of [update_data]. *)
Definition rest_patch (payload : list (string * json)) (t : Z)
    (record : DataRecord) : DataRecord :=
  mkRecord (id record)
    (get_default payload "title" (title record))
    (get_default payload "value" (value record))
    (get_default payload "computed_result" (computed_result record))
    (created_at record) t (version record + 1).

Definition update_data (record_id : string) (payload : list (string * json))
    : Act UpdateReply :=
  found <- query_first (JStr record_id) ;;
  match found with
  | None => raise (HTTPException 404 "Not found")
  | Some record =>
      let client_version := get_default payload "version" (JInt 0) in
      if stale client_version record then
        ret (version_conflict (version record))
      else
        t <- utcnow ;;
        let record' := rest_patch payload t record in
        commit record' ;;
        broadcast (data_updated (id record') (title record') (value record')
                     (Some (computed_result record')) (version record')
                     (Some (updated_at record'))) None ;;
        ret (updated (version record'))
  end.

Definition delete_data (record_id : string) : Act unit :=
  found <- query_first (JStr record_id) ;;
  match found with
  | None => raise (HTTPException 404 "Not found")
  | Some record =>
      delete_commit record ;;
      t <- utcnow ;;
      broadcast (data_deleted (JStr record_id) (Some t)) None ;;
      ret tt
  end.

(** *** WebSocket session *)

(** [record.title = ..; record.value = ..; record.version += 1;
    record.updated_at = ..] of the offline update branch. *)
Definition offline_patch (d : list (string * json)) (t : Z)
    (record : DataRecord) : DataRecord :=
  mkRecord (id record)
    (get_default d "title" (title record))
    (get_default d "value" (value record))
    (computed_result record)
    (created_at record) t (version record + 1).

(** The body of [for op in operations]. The subscripts [op["type"]] and
    [op["data"]] are evaluated once: they read [op] only. *)
Definition replay_op (device_id : string) (op : json) : Act unit :=
  ty <- lift (py_subscript op "type") ;;
  if py_eq_str ty "create" then
    d <- lift (py_subscript op "data") ;;
    title0 <- lift (py_get d "title" JNull) ;;
    value0 <- lift (py_get d "value" JNull) ;;
    record <- insert_record title0 value0 ;;
    broadcast (data_created (id record) (title record) (value record)
                 None None) (Some device_id) ;;
    ret tt
  else if py_eq_str ty "update" then
    rid <- lift (py_subscript op "record_id") ;;
    found <- query_first rid ;;
    match found with
    | Some record =>
        d <- lift (py_subscript op "data") ;;
        match d with
        | JObj kvs =>
            t <- utcnow ;;
            let record' := offline_patch kvs t record in
            commit record' ;;
            broadcast (data_updated (id record') (title record')
                         (value record') None (version record') None)
                      (Some device_id) ;;
            ret tt
        | _ => raise AttributeError
        end
    | None => ret tt
    end
  else if py_eq_str ty "delete" then
    rid <- lift (py_subscript op "record_id") ;;
    found <- query_first rid ;;
    match found with
    | Some record =>
        delete_commit record ;;
        broadcast (data_deleted rid None) (Some device_id) ;;
        ret tt
    | None => ret tt
    end
  else ret tt.

Definition sync_offline_queue (device_id : string) (data : json) : Act unit :=
  operations <- lift (py_get data "operations" (JList [])) ;;
  ops <- lift (py_iter operations) ;;
  for_each (replay_op device_id) ops.

Definition register_device (device_id : string) (data : json) : Act unit :=
  device_type <- lift (py_get data "device_type" JNull) ;;
  m <- get_manager ;;
  match PyDict.get device_id (device_registry m) with
  | None => raise (KeyError device_id)
  | Some e =>
      put_manager
        (mkManager (active_connections m)
           (PyDict.set device_id
              (mkEntry device_type (connected_at e) (last_sync e))
              (device_registry m)))
  end.

Definition sync_request (device_id : string) : Act unit :=
  rows <- query_all ;;
  t <- utcnow ;;
  send_personal_message device_id (sync_response rows t).

(** [record.computed_result = ..; record.version += 1;
    record.updated_at = ..] of the compute branch. *)
Definition compute_patch (r : spec_float) (t : Z) (record : DataRecord)
    : DataRecord :=
  mkRecord (id record) (title record) (value record) (JFloat r)
    (created_at record) t (version record + 1).

Definition compute_request (device_id : string) (data : json) : Act unit :=
  record_id <- lift (py_get data "record_id" JNull) ;;
  found <- query_first record_id ;;
  match found with
  | Some record =>
      r <- lift (sqrt_abs_times_100 (value record)) ;;
      t <- utcnow ;;
      let record' := compute_patch r t record in
      commit record' ;;
      broadcast (compute_result record_id (computed_result record')
                   (version record') (updated_at record'))
                (Some device_id) ;;
      ret tt
  | None => ret tt
  end.

(** The dispatch on [msg_type] inside the [while True] loop. *)
Definition on_message (device_id : string) (data : json) : Act unit :=
  msg_type <- lift (py_get data "type" JNull) ;;
  if py_eq_str msg_type "register_device" then register_device device_id data
  else if py_eq_str msg_type "sync_request" then sync_request device_id
  else if py_eq_str msg_type "sync_offline_queue" then
    sync_offline_queue device_id data
  else if py_eq_str msg_type "compute_request" then
    compute_request device_id data
  else ret tt.

(** What [await websocket.receive_json()] meets: a JSON text, or the end of
    the connection (close frame, transport error, text that is not JSON). *)
Inductive Inbound : Type :=
| text (data : json)
| closed.

Definition receive_json (i : Inbound) : Act json :=
  match i with
  | text data => ret data
  | closed => raise WebSocketDisconnect
  end.

(** One turn of the loop under its [except Exception] and [finally]:
    [true] when the loop goes on, [false] when the session has ended and
    [manager.disconnect(device_id)] has run. *)
Definition session_turn (device_id : string) (i : Inbound) : Act bool :=
  try_except
    (data <- receive_json i ;; on_message device_id data ;; ret true)
    (fun _ => disconnect device_id ;; ret false).

Fixpoint session_loop (device_id : string) (inbox : list Inbound) : Act bool :=
  match inbox with
  | [] => ret true
  | i :: rest =>
      alive <- session_turn device_id i ;;
      if alive then session_loop device_id rest else ret false
  end.

Definition websocket_endpoint (websocket : WebSocket) (accepted : bool)
    (device_id : string) (inbox : list Inbound) : Act bool :=
  connect websocket accepted device_id ;;
  session_loop device_id inbox.

End Server.

(** * Vocabulary of the properties *)

(** ** The manager and its two maps *)

(** The boolean form of "same key set". *)
Definition synced (m : ConnectionManager) : Prop :=
  forall d, PyDict.mem d (active_connections m) = PyDict.mem d (device_registry m).

(** The form the design document uses: the same set of device ids. *)
Definition same_ids (m : ConnectionManager) : Prop :=
  forall d, In d (PyDict.keys (active_connections m))
            <-> In d (PyDict.keys (device_registry m)).

(** What [disconnect] leaves of the manager. *)
Definition drop (d : string) (m : ConnectionManager) : ConnectionManager :=
  mkManager (PyDict.remove d (active_connections m))
            (PyDict.remove d (device_registry m)).

Definition prune (failed : list string) (m : ConnectionManager)
    : ConnectionManager :=
  fold_left (fun m d => drop d m) failed m.

(** ** One call of [broadcast] *)

(** The connections the sweep sends to. *)
Definition targets (exclude_device : option string)
    (conns : list (string * WebSocket)) : list (string * WebSocket) :=
  List.filter (fun c => negb (is_excluded exclude_device (fst c))) conns.

(** The [send_json] calls of a sweep whose first call is call number [n]. *)
Fixpoint frames (env : Env) (n : nat) (message : Event)
    (tg : list (string * WebSocket)) : list Frame :=
  match tg with
  | [] => []
  | (d, c) :: tg' =>
      mkFrame d c message (send_ok env n) :: frames env (S n) message tg'
  end.

Definition failures (fr : list Frame) : list string :=
  map to (List.filter (fun f => negb (delivered f)) fr).

Definition sent (fr : list Frame) (w : World) : World :=
  mkWorld (records w) (manager w) (clock_reads w) (uuid_draws w)
    (send_calls w + length fr)%nat (wire w ++ fr) (broadcasts w).

Definition sweep_frames (env : Env) (message : Event)
    (exclude_device : option string) (w : World) : list Frame :=
  frames env (send_calls w) message
    (targets exclude_device (active_connections (manager w))).

Definition after_broadcast (env : Env) (message : Event)
    (exclude_device : option string) (w : World) : World :=
  let fr := sweep_frames env message exclude_device w in
  mkWorld (records w) (prune (failures fr) (manager w)) (clock_reads w)
    (uuid_draws w) (send_calls w + length fr)%nat (wire w ++ fr)
    (broadcasts w ++ [(message, exclude_device)]).

(** ** Invariants of handlers *)

(** [P] survives the run of [a], whether [a] returns or raises. *)
Definition preserves {A} (P : World -> Prop) (a : Act A) : Prop :=
  forall w, P w -> P (snd (a w)).

Definition synced_world (w : World) : Prop := synced (manager w).

(** The world [connect] hands to [broadcast_status]. *)
Definition registered (env : Env) (websocket : WebSocket) (device_id : string)
    (w : World) : World :=
  mkWorld (records w)
    (mkManager
       (PyDict.set device_id websocket (active_connections (manager w)))
       (PyDict.set device_id
          (mkEntry (JStr "unknown") (utcnow_at env (clock_reads w)) JNull)
          (device_registry (manager w))))
    (S (clock_reads w)) (uuid_draws w) (send_calls w) (wire w) (broadcasts w).

(** A property that reads the manager and the broadcast log only. *)
Definition hub_only (P : World -> Prop) : Prop :=
  forall w w', manager w' = manager w -> broadcasts w' = broadcasts w ->
               P w -> P w'.

Definition is_status (e : Event) : bool :=
  match e with
  | device_status _ _ => true
  | _ => false
  end.

(** ** Concrete runs *)

Module Demo.

(** A clock that advances by one at each reading, UUIDs ["A"], ["B"], ..,
    and a transport on which every send succeeds. *)
Definition env : Env :=
  mkEnv (fun n => 1000 + Z.of_nat n)
        (fun n => nth n ["A"; "B"; "C"] "Z")
        (fun _ => true).

(** The same, with the second [send_json] call failing. *)
Definition lossy : Env :=
  mkEnv (utcnow_at env) (uuid4_at env) (fun n => negb (Nat.eqb n 1)).

Definition start : World := mkWorld ∅ (mkManager [] []) 0 0 0 [] [].

(** Devices ["d1"] and ["d2"] connected, in this order. *)
Definition two_devices : World :=
  snd (connect env 2%nat true "d2" (snd (connect env 1%nat true "d1" start))).

End Demo.

(** ** Broadcast log *)

(** The number of sends of a sweep that the transport accepted. *)
Definition delivered_count (fr : list Frame) : nat :=
  length (List.filter delivered fr).

(** The claim that the call returns the delivered count. *)
Definition returns_delivered_count (env : Env) (message : Event)
    (exclude_device : option string) (w : World) : Prop :=
  fst (broadcast env message exclude_device w)
  = Ok (JInt (Z.of_nat
               (delivered_count (sweep_frames env message exclude_device w)))).

(** Since [w0], every broadcast has been of an event other than
    [device_status]. *)
Definition quiet_since (w0 w : World) : Prop :=
  exists l, broadcasts w = (broadcasts w0 ++ l)%list
            /\ Forall (fun b => is_status (fst b) = false) l.

(** A property that reads the broadcast log only. *)
Definition log_only (P : World -> Prop) : Prop :=
  forall w w', broadcasts w' = broadcasts w -> P w -> P w'.

(** The claim that the end of a session is followed by a [device_status]
    broadcast. *)
Definition status_rebroadcast (env : Env) (dev : string) (w : World) : Prop :=
  exists ids t ex,
    In (device_status ids t, ex)
       (skipn (length (broadcasts w))
          (broadcasts (snd (session_turn env dev closed w)))).

(** ** States the record handlers reach *)

(** The clock reading the next [utcnow()] call returns. *)
Definition now (env : Env) (w : World) : Z := utcnow_at env (clock_reads w).

(** The world after [n] more clock readings. *)
Definition ticked (n : nat) (w : World) : World :=
  mkWorld (records w) (manager w) (n + clock_reads w) (uuid_draws w)
    (send_calls w) (wire w) (broadcasts w).

(** The world after one more UUID draw. *)
Definition drawn (w : World) : World :=
  mkWorld (records w) (manager w) (clock_reads w) (S (uuid_draws w))
    (send_calls w) (wire w) (broadcasts w).

(** The world after the row [r] is written. *)
Definition stored (r : DataRecord) (w : World) : World :=
  set_records (<[id r := r]> (records w)) w.

(** The world after the row under [k] is deleted. *)
Definition erased (k : string) (w : World) : World :=
  set_records (delete k (records w)) w.

(** The row a create inserts. *)
Definition fresh_record (env : Env) (title0 value0 : json) (w : World)
    : DataRecord :=
  mkRecord (uuid4_at env (uuid_draws w)) title0 value0 JNull
    (utcnow_at env (clock_reads w)) (utcnow_at env (S (clock_reads w))) 1.

Definition updated_event (r : DataRecord) : Event :=
  data_updated (id r) (title r) (value r) (Some (computed_result r))
    (version r) (Some (updated_at r)).

Definition replayed_event (r : DataRecord) : Event :=
  data_updated (id r) (title r) (value r) None (version r) None.

(** ** Messages *)

(** The messages and operations a device sends. *)
Definition offline_queue (ops : list json) : json :=
  JObj [("type", JStr "sync_offline_queue"); ("operations", JList ops)].

Definition op_create (kvs : list (string * json)) : json :=
  JObj [("type", JStr "create"); ("data", JObj kvs)].

Definition op_update (rid : string) (kvs : list (string * json)) : json :=
  JObj [("type", JStr "update"); ("record_id", JStr rid); ("data", JObj kvs)].

Definition op_delete (rid : string) : json :=
  JObj [("type", JStr "delete"); ("record_id", JStr rid)].

Definition compute_message (rid : string) : json :=
  JObj [("type", JStr "compute_request"); ("record_id", JStr rid)].

(** The state after device ["d1"] has replayed the batch
    [[{"type": "create", "data": {"title": "x"}}]]: the row ["A"] has no
    value. *)
Definition after_valueless_create : World :=
  snd (on_message Demo.env "d1"
         (offline_queue [op_create [("title", JStr "x")]]) Demo.two_devices).

(** ** The life of a row *)

(** The two ways a row comes to be. *)
Inductive Creation : Type :=
| by_post (payload : list (string * json))
| by_replay (dev : string) (kvs : list (string * json)).

(** The three ways a row is changed. *)
Inductive Mutation : Type :=
| by_put (payload : list (string * json))
| by_replay_update (dev : string) (kvs : list (string * json))
| by_compute (dev : string).

Definition create (env : Env) (c : Creation) : Act unit :=
  match c with
  | by_post payload => create_data env payload ;; ret tt
  | by_replay dev kvs => on_message env dev (offline_queue [op_create kvs])
  end.

(** Runs the handler; [true] unless [update_data] answered a conflict. *)
Definition mutate (env : Env) (rid : string) (m : Mutation) : Act bool :=
  match m with
  | by_put payload =>
      reply <- update_data env rid payload ;;
      ret (match reply with updated _ => true | version_conflict _ => false end)
  | by_replay_update dev kvs =>
      on_message env dev (offline_queue [op_update rid kvs]) ;; ret true
  | by_compute dev =>
      on_message env dev (compute_message rid) ;; ret true
  end.

(** [lived env rid w hist]: in state [w] the row [rid] exists, and [hist]
    lists the values it has had, the latest first: it was created, then
    changed by successful mutations, while the server did other things that
    left this row alone. *)
Inductive lived (env : Env) (rid : string) : World -> list DataRecord -> Prop :=
| lived_created c w w' r :
    synced (manager w) ->
    records w !! rid = None ->
    create env c w = (Ok tt, w') ->
    records w' !! rid = Some r ->
    lived env rid w' [r]
| lived_mutated m w w' r' hist :
    lived env rid w hist ->
    synced (manager w) ->
    mutate env rid m w = (Ok true, w') ->
    records w' !! rid = Some r' ->
    lived env rid w' (r' :: hist)
| lived_meanwhile w w' hist :
    lived env rid w hist ->
    records w' !! rid = records w !! rid ->
    (clock_reads w <= clock_reads w')%nat ->
    lived env rid w' hist.

(** [n; n-1; ..; 1]. *)
Fixpoint countdown (n : nat) : list Z :=
  match n with
  | O => []
  | S k => Z.of_nat (S k) :: countdown k
  end.

Definition monotone_clock (env : Env) : Prop :=
  forall i j, (i <= j)%nat -> utcnow_at env i <= utcnow_at env j.

(** The invariant of [lived]. *)
Definition history_ok (env : Env) (rid : string) (w : World)
    (hist : list DataRecord) : Prop :=
  (exists r rest, hist = r :: rest /\ records w !! rid = Some r /\ id r = rid)
  /\ map version hist = countdown (length hist)
  /\ exists ks,
       map updated_at hist = map (utcnow_at env) ks
       /\ StronglySorted gt ks
       /\ Forall (fun k => (k < clock_reads w)%nat) ks.

(** A life of row ["A"]: created by the REST endpoint with value -25, then
    a REST update, an offline update by ["d1"] and a compute request by
    ["d2"]. *)
Definition life_0 : World :=
  snd (create Demo.env
         (by_post [("title", JStr "t"); ("value", JInt (-25))])
         Demo.two_devices).

Definition life_1 : World :=
  snd (mutate Demo.env "A"
         (by_put [("title", JStr "u"); ("version", JInt 1)]) life_0).

Definition life_2 : World :=
  snd (mutate Demo.env "A" (by_replay_update "d1" [("title", JStr "v")])
         life_1).

Definition life_3 : World :=
  snd (mutate Demo.env "A" (by_compute "d2") life_2).

(** The row under ["A"] in each of these states. *)
Definition row (w : World) : DataRecord :=
  match records w !! "A" with
  | Some r => r
  | None => mkRecord "" JNull JNull JNull 0 0 0
  end.

Definition life_history : list DataRecord :=
  [row life_3; row life_2; row life_1; row life_0].

(** ** More of the server: health check, square roots, well-formed states *)

(** [GET /health]: the number of live connections and the server time. *)
Definition health_check (env : Env) : Act (nat * Z) :=
  m <- get_manager ;;
  t <- utcnow env ;;
  ret (length (active_connections m), t).

(** [math.sqrt(x)]; [None] stands for the [ValueError] ("math domain
    error") of a negative argument. The negative zero is in the domain. *)
Definition math_sqrt (x : spec_float) : option spec_float :=
  match x with
  | S754_finite true _ _ => None
  | S754_infinity true => None
  | _ => Some (SFsqrt prec emax x)
  end.

(** Both maps list each device id once, and in the same order. *)
Definition aligned (m : ConnectionManager) : Prop :=
  PyDict.keys (active_connections m) = PyDict.keys (device_registry m)
  /\ NoDup (PyDict.keys (active_connections m)).

Definition aligned_world (w : World) : Prop := aligned (manager w).

(** Every row of the table is filed under its own [id]. *)
Definition keyed (w : World) : Prop :=
  forall k r, records w !! k = Some r -> id r = k.

(** A property that reads the table only. *)
Definition table_only (P : World -> Prop) : Prop :=
  forall w w', records w' = records w -> P w -> P w'.

(** The [register_device] message of a device. *)
Definition register_message (device_type : json) : json :=
  JObj [("type", JStr "register_device"); ("device_type", device_type)].

Definition sync_request_message : json := JObj [("type", JStr "sync_request")].

(** The frames put on the wire since [w0]. *)
Definition sent_since (w0 w : World) : list Frame :=
  skipn (length (wire w0)) (wire w).

(** The environment of [Demo.env], on which the fifth [send_json] call
    fails: from [Demo.two_devices] that is the second send of the next
    sweep. *)
Definition flaky : Env :=
  mkEnv (utcnow_at Demo.env) (uuid4_at Demo.env) (fun n => negb (Nat.eqb n 4)).

(** The [device_status] event [connect] broadcasts, and the state it
    leaves when the handshake succeeded. *)
Definition status_event (env : Env) (websocket : WebSocket) (d : string)
    (w : World) : Event :=
  device_status
    (PyDict.keys (device_registry (manager (registered env websocket d w))))
    (utcnow_at env (S (clock_reads w))).

Definition connected (env : Env) (websocket : WebSocket) (d : string)
    (w : World) : World :=
  after_broadcast env (status_event env websocket d w) None
    (ticked 1 (registered env websocket d w)).

(** All the rows of the table, as [query_all] lists them. *)
Definition all_rows (w : World) : list DataRecord :=
  map snd (map_to_list (records w)).

(** Since [w0], every broadcast has had [x] as its excluded device. *)
Definition excluding_since (x : option string) (w0 w : World) : Prop :=
  exists l, broadcasts w = (broadcasts w0 ++ l)%list
            /\ Forall (fun b => snd b = x) l.

(** * Properties *)

(** ** Dictionaries *)

Section DictFacts.
Context {V : Type}.
Implicit Types (d : list (string * V)) (k : string).

Lemma mem_In_keys k d : PyDict.mem k d = true <-> In k (PyDict.keys d).
Proof.
  unfold PyDict.mem. induction d as [|[k' v] d IH]; simpl.
  - split; [discriminate | tauto].
  - destruct (String.eqb_spec k' k) as [->|Hne].
    + split; auto.
    + rewrite IH. split; [tauto | intros [H|H]; [congruence | exact H]].
Qed.

Lemma mem_set k k' (v : V) d :
  PyDict.mem k' (PyDict.set k v d) = (String.eqb k k' || PyDict.mem k' d)%bool.
Proof.
  unfold PyDict.mem. induction d as [|[k0 v0] d IH]; simpl.
  - destruct (String.eqb k k'); reflexivity.
  - destruct (String.eqb_spec k0 k) as [->|Hne]; simpl.
    + destruct (String.eqb k k'); reflexivity.
    + destruct (String.eqb_spec k0 k') as [->|Hne'].
      * apply eq_sym, orb_true_r.
      * exact IH.
Qed.

Lemma mem_remove k k' d :
  PyDict.mem k' (PyDict.remove k d)
  = (negb (String.eqb k k') && PyDict.mem k' d)%bool.
Proof.
  unfold PyDict.mem. induction d as [|[k0 v0] d IH]; simpl.
  - apply eq_sym, andb_false_r.
  - destruct (String.eqb_spec k0 k) as [->|Hne]; simpl.
    + rewrite IH. destruct (String.eqb_spec k k') as [->|Hne']; reflexivity.
    + destruct (String.eqb_spec k0 k') as [->|Hne'].
      * destruct (String.eqb_spec k k') as [->|_]; [congruence | reflexivity].
      * exact IH.
Qed.

Lemma remove_absent k d : PyDict.mem k d = false -> PyDict.remove k d = d.
Proof.
  unfold PyDict.mem. induction d as [|[k0 v0] d IH]; simpl; [reflexivity|].
  destruct (String.eqb k0 k); [discriminate|].
  intros H. now rewrite IH.
Qed.

End DictFacts.

(** ** The connection manager keeps its two maps on the same device ids *)

Lemma synced_same_ids m : synced m <-> same_ids m.
Proof.
  unfold synced, same_ids. split; intros H d.
  - rewrite <- !mem_In_keys. now rewrite H.
  - specialize (H d). rewrite <- !mem_In_keys in H.
    destruct (PyDict.mem d (active_connections m)),
             (PyDict.mem d (device_registry m)); intuition congruence.
Qed.

Lemma drop_synced d m : synced m -> synced (drop d m).
Proof. intros H k. simpl. now rewrite !mem_remove, H. Qed.

Lemma prune_synced failed m : synced m -> synced (prune failed m).
Proof.
  revert m. induction failed as [|d l IH]; simpl; intros m H; [exact H|].
  apply IH, drop_synced, H.
Qed.

Lemma set_manager_id w : set_manager (manager w) w = w.
Proof. now destruct w. Qed.

Lemma disconnect_run d w :
  synced (manager w) ->
  disconnect d w = (Ok tt, set_manager (drop d (manager w)) w).
Proof.
  intros H. unfold disconnect, bind, get_manager, lift, put_manager, ret.
  unfold PyDict.del.
  destruct (PyDict.mem d (active_connections (manager w))) eqn:E.
  - simpl. rewrite <- H, E. reflexivity.
  - unfold drop. rewrite (remove_absent _ _ E).
    rewrite H in E. rewrite (remove_absent _ _ E).
    destruct w as [r [ac reg] c u s wi b]. reflexivity.
Qed.

Lemma for_each_disconnect_run l w :
  synced (manager w) ->
  for_each disconnect l w = (Ok tt, set_manager (prune l (manager w)) w).
Proof.
  revert w. induction l as [|d l IH]; intros w H; simpl.
  - now rewrite set_manager_id.
  - unfold bind. rewrite (disconnect_run _ _ H).
    rewrite IH by (simpl; apply drop_synced, H).
    reflexivity.
Qed.

(** ** What one [broadcast] call does *)

Lemma sweep_run env message ex conns w :
  sweep env message ex conns w
  = (Ok (failures (frames env (send_calls w) message (targets ex conns))),
     sent (frames env (send_calls w) message (targets ex conns)) w).
Proof.
  revert w. induction conns as [|[d c] conns IH]; intros w; simpl.
  - unfold ret, sent. simpl. rewrite Nat.add_0_r, app_nil_r.
    now destruct w.
  - destruct (is_excluded ex d) eqn:E; simpl.
    + apply IH.
    + fold (targets ex conns).
      unfold bind at 1. unfold try_except, bind at 1, send_json, ret.
      destruct (send_ok env (send_calls w)) eqn:S; simpl;
        unfold bind; rewrite IH; simpl; unfold failures, sent; simpl.
      all: rewrite Nat.add_succ_r, <- app_assoc; reflexivity.
Qed.

Lemma broadcast_run env message ex w :
  synced (manager w) ->
  broadcast env message ex w = (Ok JNull, after_broadcast env message ex w).
Proof.
  intros H. unfold broadcast, bind at 1, note_broadcast.
  unfold bind at 1, get_manager. simpl.
  unfold bind at 1. rewrite sweep_run. simpl.
  unfold bind at 1. rewrite for_each_disconnect_run by exact H.
  reflexivity.
Qed.

(** ** Invariants along a handler *)

Section Preserves.
Context (P : World -> Prop).

Lemma preserves_ret {A} (x : A) : preserves P (ret x).
Proof. intros w H. exact H. Qed.

Lemma preserves_raise {A} e : preserves P (@raise A e).
Proof. intros w H. exact H. Qed.

Lemma preserves_lift {A} (r : Res A) : preserves P (lift r).
Proof. intros w H. exact H. Qed.

Lemma preserves_bind {A B} (m : Act A) (k : A -> Act B) :
  preserves P m -> (forall x, preserves P (k x)) -> preserves P (bind m k).
Proof.
  intros Hm Hk w Hw. unfold bind. specialize (Hm w Hw).
  destruct (m w) as [[a|e] w']; simpl in *; [now apply Hk | exact Hm].
Qed.

Lemma preserves_try {A} (m : Act A) (h : exn -> Act A) :
  preserves P m -> (forall e, preserves P (h e)) -> preserves P (try_except m h).
Proof.
  intros Hm Hh w Hw. unfold try_except. specialize (Hm w Hw).
  destruct (m w) as [[a|e] w']; simpl in *; [exact Hm | now apply Hh].
Qed.

Lemma preserves_for_each {A} (body : A -> Act unit) l :
  (forall x, preserves P (body x)) -> preserves P (for_each body l).
Proof.
  intros Hb. induction l as [|x l IH]; simpl.
  - apply preserves_ret.
  - apply preserves_bind; [apply Hb | intros _; exact IH].
Qed.
End Preserves.

Ltac pres_step :=
  lazymatch goal with
  | |- preserves _ (bind _ _) => apply preserves_bind; [|intro]
  | |- preserves _ (try_except _ _) => apply preserves_try; [|intro]
  | |- preserves _ (for_each _ _) => apply preserves_for_each; intro
  | |- preserves _ (ret _) => apply preserves_ret
  | |- preserves _ (raise _) => apply preserves_raise
  | |- preserves _ (lift _) => apply preserves_lift
  end.

(** ** Every manager operation keeps the two maps on the same ids *)

Lemma disconnect_synced d : preserves synced_world (disconnect d).
Proof.
  intros w H. rewrite (disconnect_run _ _ H). simpl. apply drop_synced, H.
Qed.

Lemma broadcast_synced env message ex :
  preserves synced_world (broadcast env message ex).
Proof.
  intros w H. rewrite (broadcast_run _ _ _ _ H). simpl.
  apply prune_synced, H.
Qed.

Lemma broadcast_status_synced env : preserves synced_world (broadcast_status env).
Proof.
  unfold broadcast_status.
  pres_step. { intros w H; exact H. }
  pres_step. { intros w H; exact H. }
  pres_step. { apply broadcast_synced. }
  pres_step.
Qed.

Lemma send_personal_message_synced env d message :
  preserves synced_world (send_personal_message env d message).
Proof.
  unfold send_personal_message.
  pres_step. { intros w H; exact H. }
  destruct (PyDict.get d (active_connections x)) as [c|]; [|pres_step].
  pres_step.
  - intros w H; exact H.
  - apply disconnect_synced.
Qed.

Lemma connect_run env websocket device_id w :
  connect env websocket true device_id w
  = broadcast_status env (registered env websocket device_id w).
Proof. reflexivity. Qed.

Lemma connect_refused env websocket device_id w :
  connect env websocket false device_id w = (Raise WebSocketDisconnect, w).
Proof. reflexivity. Qed.

Lemma registered_synced env websocket device_id w :
  synced_world w -> synced_world (registered env websocket device_id w).
Proof. intros H d. simpl. rewrite !mem_set. now rewrite (H d). Qed.

Lemma connect_synced env websocket accepted device_id :
  preserves synced_world (connect env websocket accepted device_id).
Proof.
  intros w H. destruct accepted.
  - rewrite connect_run. apply broadcast_status_synced, registered_synced, H.
  - rewrite connect_refused. exact H.
Qed.

Lemma register_device_synced device_id data :
  preserves synced_world (register_device device_id data).
Proof.
  intros w H. unfold register_device, bind, lift, get_manager.
  destruct (py_get data "device_type" JNull) as [ty|e]; [|exact H].
  simpl.
  destruct (PyDict.get device_id (device_registry (manager w)))
    as [ent|] eqn:E; [|exact H].
  intros d. simpl. rewrite mem_set, (H d).
  destruct (String.eqb_spec device_id d) as [<-|]; [|reflexivity].
  simpl. unfold PyDict.mem. now rewrite E.
Qed.

Lemma synced_hub_only : hub_only synced_world.
Proof. intros w w' E _ H. unfold synced_world. now rewrite E. Qed.

(** Reading the clock, drawing a UUID, sending and touching the table leave
    the manager and the broadcast log alone. *)
Section StoreActions.
Context (env : Env) (P : World -> Prop) (HP : hub_only P).

Lemma utcnow_pres : preserves P (utcnow env).
Proof. intros w H. eapply HP; [| |exact H]; reflexivity. Qed.

Lemma uuid4_pres : preserves P (uuid4 env).
Proof. intros w H. eapply HP; [| |exact H]; reflexivity. Qed.

Lemma send_json_pres d c message : preserves P (send_json env d c message).
Proof. intros w H. eapply HP; [| |exact H]; reflexivity. Qed.

Lemma query_first_pres k : preserves P (query_first k).
Proof. intros w H. destruct k; exact H. Qed.

Lemma query_all_pres : preserves P query_all.
Proof. intros w H. exact H. Qed.

Lemma add_commit_pres r : preserves P (add_commit r).
Proof.
  intros w H. unfold add_commit. destruct (records w !! id r); [exact H|].
  eapply HP; [| |exact H]; reflexivity.
Qed.

Lemma commit_pres r : preserves P (commit r).
Proof. intros w H. eapply HP; [| |exact H]; reflexivity. Qed.

Lemma delete_commit_pres r : preserves P (delete_commit r).
Proof. intros w H. eapply HP; [| |exact H]; reflexivity. Qed.

Lemma insert_record_pres t v : preserves P (insert_record env t v).
Proof.
  unfold insert_record.
  pres_step; [apply uuid4_pres|].
  pres_step; [apply utcnow_pres|].
  pres_step; [apply utcnow_pres|].
  pres_step; [apply add_commit_pres|].
  pres_step.
Qed.
End StoreActions.

(** The handlers, [connect] apart, are built from the table actions, from
    broadcasts of events other than [device_status], and from the manager's
    [disconnect], [send_personal_message] and registry update: a property
    those keep is kept by every handler. *)
Section Handlers.
Context (env : Env) (P : World -> Prop).
Context (HP : hub_only P).
Context (Hbroadcast : forall message ex,
            is_status message = false -> preserves P (broadcast env message ex)).
Context (Hdisconnect : forall d, preserves P (disconnect d)).
Context (Hregister : forall d data, preserves P (register_device d data)).
Context (Hpersonal : forall d message,
            is_status message = false ->
            preserves P (send_personal_message env d message)).

Lemma create_data_pres payload : preserves P (create_data env payload).
Proof.
  unfold create_data.
  pres_step; [now apply insert_record_pres|].
  pres_step; [now apply utcnow_pres|].
  pres_step; [now apply Hbroadcast|].
  pres_step.
Qed.

Lemma update_data_pres rid payload : preserves P (update_data env rid payload).
Proof.
  unfold update_data.
  pres_step; [now apply query_first_pres|].
  destruct x as [r|]; [|pres_step].
  destruct (stale _ r); [pres_step|].
  pres_step; [now apply utcnow_pres|].
  pres_step; [now apply commit_pres|].
  pres_step; [now apply Hbroadcast|].
  pres_step.
Qed.

Lemma delete_data_pres rid : preserves P (delete_data env rid).
Proof.
  unfold delete_data.
  pres_step; [now apply query_first_pres|].
  destruct x as [r|]; [|pres_step].
  pres_step; [now apply delete_commit_pres|].
  pres_step; [now apply utcnow_pres|].
  pres_step; [now apply Hbroadcast|].
  pres_step.
Qed.

Lemma replay_op_pres dev op : preserves P (replay_op env dev op).
Proof.
  unfold replay_op.
  pres_step; [pres_step|].
  destruct (py_eq_str x "create").
  { pres_step; [pres_step|].
    pres_step; [pres_step|].
    pres_step; [pres_step|].
    pres_step; [now apply insert_record_pres|].
    pres_step; [now apply Hbroadcast|].
    pres_step. }
  destruct (py_eq_str x "update").
  { pres_step; [pres_step|].
    pres_step; [now apply query_first_pres|].
    destruct x1 as [r|]; [|pres_step].
    pres_step; [pres_step|].
    destruct x1; try pres_step.
    - now apply utcnow_pres.
    - pres_step; [now apply commit_pres|].
      pres_step; [now apply Hbroadcast|].
      pres_step. }
  destruct (py_eq_str x "delete"); [|pres_step].
  pres_step; [pres_step|].
  pres_step; [now apply query_first_pres|].
  destruct x1 as [r|]; [|pres_step].
  pres_step; [now apply delete_commit_pres|].
  pres_step; [now apply Hbroadcast|].
  pres_step.
Qed.

Lemma compute_request_pres dev data :
  preserves P (compute_request env dev data).
Proof.
  unfold compute_request.
  pres_step; [pres_step|].
  pres_step; [now apply query_first_pres|].
  destruct x0 as [r|]; [|pres_step].
  pres_step; [pres_step|].
  pres_step; [now apply utcnow_pres|].
  pres_step; [now apply commit_pres|].
  pres_step; [now apply Hbroadcast|].
  pres_step.
Qed.

Lemma on_message_pres dev data : preserves P (on_message env dev data).
Proof.
  unfold on_message.
  pres_step; [pres_step|].
  destruct (py_eq_str x "register_device"); [apply Hregister|].
  destruct (py_eq_str x "sync_request").
  { unfold sync_request.
    pres_step; [now apply query_all_pres|].
    pres_step; [now apply utcnow_pres|].
    now apply Hpersonal. }
  destruct (py_eq_str x "sync_offline_queue").
  { unfold sync_offline_queue.
    pres_step; [pres_step|].
    pres_step; [pres_step|].
    pres_step. apply replay_op_pres. }
  destruct (py_eq_str x "compute_request"); [|pres_step].
  apply compute_request_pres.
Qed.

Lemma session_turn_pres dev i : preserves P (session_turn env dev i).
Proof.
  unfold session_turn.
  pres_step.
  - pres_step; [unfold receive_json; destruct i; pres_step|].
    pres_step; [apply on_message_pres|].
    pres_step.
  - pres_step; [apply Hdisconnect|].
    pres_step.
Qed.

Lemma session_loop_pres dev inbox : preserves P (session_loop env dev inbox).
Proof.
  induction inbox as [|i inbox IH]; simpl; [pres_step|].
  pres_step; [apply session_turn_pres|].
  destruct x; [exact IH | pres_step].
Qed.
End Handlers.

(** Every handler keeps the two maps of the manager on the same ids. *)
Section HandlersKeepIds.
Context (env : Env).

Lemma session_turn_synced dev i : preserves synced_world (session_turn env dev i).
Proof.
  apply session_turn_pres; auto using synced_hub_only, disconnect_synced,
    register_device_synced.
  - intros; apply broadcast_synced.
  - intros; apply send_personal_message_synced.
Qed.

Lemma on_message_synced dev data : preserves synced_world (on_message env dev data).
Proof.
  apply on_message_pres; auto using synced_hub_only, disconnect_synced,
    register_device_synced.
  - intros; apply broadcast_synced.
  - intros; apply send_personal_message_synced.
Qed.

Lemma rest_synced :
  (forall payload, preserves synced_world (create_data env payload))
  /\ (forall rid payload, preserves synced_world (update_data env rid payload))
  /\ (forall rid, preserves synced_world (delete_data env rid)).
Proof.
  repeat split; intros.
  - apply create_data_pres; [apply synced_hub_only|].
    intros; apply broadcast_synced.
  - apply update_data_pres; [apply synced_hub_only|].
    intros; apply broadcast_synced.
  - apply delete_data_pres; [apply synced_hub_only|].
    intros; apply broadcast_synced.
Qed.

Lemma websocket_endpoint_synced ws acc dev inbox :
  preserves synced_world (websocket_endpoint env ws acc dev inbox).
Proof.
  unfold websocket_endpoint.
  pres_step; [apply connect_synced|].
  apply session_loop_pres; auto using synced_hub_only, disconnect_synced,
    register_device_synced.
  - intros; apply broadcast_synced.
  - intros; apply send_personal_message_synced.
Qed.
End HandlersKeepIds.

(** ** C9: the two maps of the manager *)

Lemma start_same_ids : same_ids (manager Demo.start).
Proof. intros d. simpl. tauto. Qed.

Lemma disconnect_absent d w :
  PyDict.mem d (active_connections (manager w)) = false ->
  disconnect d w = (Ok tt, w).
Proof.
  intros H. unfold disconnect, bind, get_manager. now rewrite H.
Qed.

(** C9. Whenever [active_connections] and [device_registry] hold the same
    set of device ids, they still do after [connect], after [disconnect]
    (which then returns without raising), after [broadcast] with its pruning
    of the devices whose send failed, and after [send_personal_message] with
    its pruning on a failed send; and [disconnect] of an id that is not
    registered returns normally and leaves the whole state as it was. *)
Theorem manager_maps_share_ids env w :
  same_ids (manager w) ->
  (forall websocket accepted d,
      same_ids (manager (snd (connect env websocket accepted d w))))
  /\ (forall d, fst (disconnect d w) = Ok tt
                /\ same_ids (manager (snd (disconnect d w))))
  /\ (forall message exclude_device,
         same_ids (manager (snd (broadcast env message exclude_device w))))
  /\ (forall d message,
         same_ids (manager (snd (send_personal_message env d message w))))
  /\ (forall d, ~ In d (PyDict.keys (device_registry (manager w))) ->
                disconnect d w = (Ok tt, w)).
Proof.
  intros H. apply synced_same_ids in H.
  split; [|split; [|split; [|split]]].
  - intros. apply synced_same_ids. now apply connect_synced.
  - intros d. split.
    + now rewrite disconnect_run.
    + apply synced_same_ids. now apply disconnect_synced.
  - intros. apply synced_same_ids. now apply broadcast_synced.
  - intros. apply synced_same_ids. now apply send_personal_message_synced.
  - intros d Hd. apply disconnect_absent. rewrite (H d).
    destruct (PyDict.mem d (device_registry (manager w))) eqn:E; [|reflexivity].
    apply mem_In_keys in E. contradiction.
Qed.

Lemma manager_maps_share_ids_witness :
  same_ids (manager Demo.two_devices)
  /\ disconnect "d3" Demo.two_devices = (Ok tt, Demo.two_devices).
Proof.
  assert (H : same_ids (manager Demo.two_devices)).
  { intros d. vm_compute. tauto. }
  split; [exact H|].
  apply (manager_maps_share_ids Demo.env Demo.two_devices H).
  vm_compute. intros [E|[E|[]]]; discriminate E.
Defined.

(** ** C3: the sweep of [broadcast] *)

Lemma frames_receivers env n message tg :
  map (fun f => (to f, socket f)) (frames env n message tg) = tg.
Proof.
  revert n. induction tg as [|[d c] tg IH]; intros n; simpl; [reflexivity|].
  now rewrite IH.
Qed.

Lemma frames_event env n message tg :
  Forall (fun f => event f = message) (frames env n message tg).
Proof.
  revert n. induction tg as [|[d c] tg IH]; intros n; simpl; constructor;
    [reflexivity | apply IH].
Qed.

Lemma failures_spec d fr :
  In d (failures fr) <-> exists f, In f fr /\ to f = d /\ delivered f = false.
Proof.
  unfold failures. rewrite in_map_iff. split.
  - intros (f & E & I). apply filter_In in I as [I D].
    exists f. repeat split; auto. now destruct (delivered f).
  - intros (f & I & E & D). exists f. split; [exact E|].
    apply filter_In. split; [exact I|]. now rewrite D.
Qed.

Lemma mem_prune d l m :
  PyDict.mem d (active_connections (prune l m))
  = (PyDict.mem d (active_connections m) && negb (existsb (String.eqb d) l))%bool
  /\ PyDict.mem d (device_registry (prune l m))
     = (PyDict.mem d (device_registry m) && negb (existsb (String.eqb d) l))%bool.
Proof.
  revert m. induction l as [|k l IH]; intros m; simpl.
  - now rewrite !andb_true_r.
  - destruct (IH (drop k m)) as [a b]. rewrite a, b. simpl.
    rewrite !mem_remove, (String.eqb_sym k d).
    destruct (String.eqb d k), (existsb (String.eqb d) l),
      (PyDict.mem d (active_connections m)),
      (PyDict.mem d (device_registry m)); auto.
Qed.

Lemma not_excluded ex d : ex <> Some d -> is_excluded ex d = false.
Proof.
  unfold is_excluded. destruct ex as [e|]; [|reflexivity].
  intros H. destruct (String.eqb_spec d e) as [->|]; [congruence|].
  apply andb_false_r.
Qed.

Lemma excluded_nonempty e : e <> "" -> is_excluded (Some e) e = true.
Proof.
  intros H. unfold is_excluded, truthy. rewrite String.eqb_refl.
  destruct (String.eqb_spec e ""); [contradiction | reflexivity].
Qed.

(** C3, as the code has it. A [broadcast] call on a manager whose maps agree
    makes exactly one [send_json] call per connection registered at the start
    of the call other than the excluded device, in registration order and
    whatever the earlier sends did; it makes none to a non-empty excluded
    id; the manager is untouched until the sweep is over, and afterwards the
    devices left are those whose send did not fail; the call returns [None]. *)
Theorem broadcast_sweeps_then_prunes env message exclude_device w :
  same_ids (manager w) ->
  let conns := active_connections (manager w) in
  let fr := sweep_frames env message exclude_device w in
  let w' := snd (broadcast env message exclude_device w) in
  fst (broadcast env message exclude_device w) = Ok JNull
  /\ wire w' = (wire w ++ fr)%list
  /\ map (fun f => (to f, socket f)) fr = targets exclude_device conns
  /\ Forall (fun f => event f = message) fr
  /\ (forall d c, In (d, c) conns -> exclude_device <> Some d ->
                  exists f, In f fr /\ to f = d /\ socket f = c)
  /\ (forall e, exclude_device = Some e -> e <> "" ->
                forall f, In f fr -> to f <> e)
  /\ manager (snd (sweep env message exclude_device conns w)) = manager w
  /\ (forall d,
         PyDict.mem d (active_connections (manager w'))
         = (PyDict.mem d conns
            && negb (existsb (String.eqb d) (failures fr)))%bool)
  /\ (forall d, In d (failures fr)
                <-> exists f, In f fr /\ to f = d /\ delivered f = false).
Proof.
  intros H conns fr w'. apply synced_same_ids in H.
  assert (R : map (fun f => (to f, socket f)) fr = targets exclude_device conns)
    by apply frames_receivers.
  subst w'. rewrite (broadcast_run _ _ _ _ H). simpl.
  split; [reflexivity|]. split; [reflexivity|]. split; [exact R|].
  split; [apply frames_event|].
  split; [|split; [|split; [|split]]].
  - intros d c I N.
    assert (T : In (d, c) (targets exclude_device conns)).
    { apply filter_In. split; [exact I|]. simpl. now rewrite not_excluded. }
    rewrite <- R in T. apply in_map_iff in T as (f & E & If).
    exists f. inversion E. auto.
  - intros e -> Ne f If Hto.
    assert (T : In (to f, socket f) (targets (Some e) conns)).
    { rewrite <- R. apply in_map_iff. exists f. auto. }
    apply filter_In in T as [_ T]. simpl in T.
    rewrite Hto, (excluded_nonempty _ Ne) in T. discriminate.
  - rewrite sweep_run. reflexivity.
  - intros d. apply mem_prune.
  - intros d. apply failures_spec.
Qed.

Lemma broadcast_sweeps_then_prunes_witness :
  same_ids (manager Demo.two_devices)
  /\ fst (broadcast Demo.lossy (data_deleted (JStr "A") None) (Some "d9")
            Demo.two_devices) = Ok JNull.
Proof.
  assert (H : same_ids (manager Demo.two_devices)).
  { intros d. vm_compute. tauto. }
  split; [exact H|].
  exact (proj1 (broadcast_sweeps_then_prunes Demo.lossy
                  (data_deleted (JStr "A") None) (Some "d9")
                  Demo.two_devices H)).
Defined.

(** C3 as stated fails: with two healthy devices connected the delivered
    count is 2, and the call returns [None]. *)
Lemma broadcast_returns_no_count :
  ~ returns_delivered_count Demo.env (data_deleted (JStr "A") None) None
      Demo.two_devices.
Proof. vm_compute. discriminate. Qed.

(** An empty [exclude_device] is false in the guard of the sweep, so the
    device registered under the empty id is sent to. *)
Lemma empty_exclusion_excludes_nobody :
  let w := snd (connect Demo.env 1%nat true "" Demo.start) in
  map to (sweep_frames Demo.env (data_deleted (JStr "A") None) (Some "") w)
  = [""].
Proof. reflexivity. Qed.

(** ** C6: the end of a session *)

Lemma quiet_log_only w0 : log_only (quiet_since w0).
Proof. intros w w' E (l & a & b). exists l. now rewrite E. Qed.

Lemma log_only_hub_only P : log_only P -> hub_only P.
Proof. intros H w w' _ E. now apply H. Qed.

Section LogActions.
Context (env : Env) (P : World -> Prop) (HP : log_only P).

Lemma disconnect_log d : preserves P (disconnect d).
Proof.
  intros w Hw. unfold disconnect, bind, get_manager, lift, put_manager, ret.
  unfold PyDict.del.
  destruct (PyDict.mem d (active_connections (manager w))); [|exact Hw].
  simpl. destruct (PyDict.mem d (device_registry (manager w))); simpl;
    (eapply HP; [|exact Hw]; reflexivity).
Qed.

Lemma sweep_log message ex conns : preserves P (sweep env message ex conns).
Proof.
  intros w Hw. rewrite sweep_run. simpl. eapply HP; [|exact Hw]. reflexivity.
Qed.

Lemma register_device_log d data : preserves P (register_device d data).
Proof.
  intros w H. unfold register_device, bind, lift, get_manager.
  destruct (py_get data "device_type" JNull) as [ty|e]; [|exact H].
  simpl.
  destruct (PyDict.get d (device_registry (manager w))); [|exact H].
  eapply HP; [|exact H]. reflexivity.
Qed.

Lemma send_personal_message_log d message :
  preserves P (send_personal_message env d message).
Proof.
  unfold send_personal_message.
  pres_step. { intros w H; exact H. }
  destruct (PyDict.get d (active_connections x)) as [c|]; [|pres_step].
  pres_step.
  - apply send_json_pres. now apply log_only_hub_only.
  - apply disconnect_log.
Qed.
End LogActions.

(** A call of [broadcast] is logged, whether or not it runs to its end. *)
Lemma broadcast_logged env message ex w :
  broadcasts (snd (broadcast env message ex w))
  = (broadcasts w ++ [(message, ex)])%list.
Proof.
  unfold broadcast, bind at 1, note_broadcast.
  match goal with |- broadcasts (snd (?a ?w1)) = ?b =>
    assert (K : preserves (fun w' => broadcasts w' = b) a);
      [|apply K; reflexivity]
  end.
  assert (L : log_only (fun w' => broadcasts w' =
                          (broadcasts w ++ [(message, ex)])%list))
    by (intros w1 w2 E H; now rewrite E).
  pres_step. { intros w1 H; exact H. }
  pres_step. { now apply sweep_log. }
  pres_step. { pres_step. now apply disconnect_log. }
  pres_step.
Qed.

Lemma broadcast_quiet env w0 message ex :
  is_status message = false ->
  preserves (quiet_since w0) (broadcast env message ex).
Proof.
  intros N w (l & a & b). exists (l ++ [(message, ex)])%list.
  rewrite broadcast_logged, a, app_assoc. split; [reflexivity|].
  apply Forall_app. split; [exact b|]. now constructor.
Qed.

Lemma session_turn_quiet env dev i w :
  quiet_since w (snd (session_turn env dev i w)).
Proof.
  apply (session_turn_pres env (quiet_since w)).
  - apply log_only_hub_only, quiet_log_only.
  - intros. now apply broadcast_quiet.
  - intros. apply disconnect_log, quiet_log_only.
  - intros. apply register_device_log, quiet_log_only.
  - intros. apply send_personal_message_log, quiet_log_only.
  - exists []. split; [now rewrite app_nil_r | constructor].
Qed.

Lemma session_turn_closed env dev w :
  synced (manager w) ->
  session_turn env dev closed w
  = (Ok false, set_manager (drop dev (manager w)) w).
Proof.
  intros H. unfold session_turn, try_except, bind at 1. simpl.
  unfold bind. now rewrite disconnect_run.
Qed.

(** The body of the loop either goes on or raises; when it raises the
    handler unregisters the device. *)
Lemma session_turn_cases env dev i w :
  synced (manager w) ->
  (exists w', session_turn env dev i w = (Ok true, w'))
  \/ (exists w1, synced (manager w1)
        /\ session_turn env dev i w
           = (Ok false, set_manager (drop dev (manager w1)) w1)).
Proof.
  intros H. unfold session_turn, try_except.
  set (body := (data <- receive_json i ;; on_message env dev data ;; ret true)).
  assert (S0 : preserves synced_world body).
  { subst body. pres_step; [unfold receive_json; destruct i; pres_step|].
    pres_step; [apply on_message_synced|]. pres_step. }
  specialize (S0 w H).
  assert (B : forall a w1, body w = (Ok a, w1) -> a = true).
  { subst body. unfold bind.
    destruct (receive_json i w) as [[d|e] w2]; [|discriminate].
    destruct (on_message env dev d w2) as [[[]|e] w3]; [|discriminate].
    unfold ret. now intros a w1 [= <- _]. }
  destruct (body w) as [[a|e] w1] eqn:E.
  - left. exists w1. now rewrite (B a w1 eq_refl).
  - right. exists w1. split; [exact S0|].
    unfold bind. now rewrite disconnect_run by exact S0.
Qed.

(** C6, as the code has it. When a session ends on a close or a transport
    error, [manager.disconnect] removes the device from [active_connections]
    and from [device_registry] and nothing else changes: nothing is sent and
    nothing is broadcast. Whatever ends the session, the device is in
    neither map afterwards, the exception does not leave the handler, and
    no [device_status] event is broadcast by a turn of the session. *)
Theorem session_end_unregisters env dev w :
  same_ids (manager w) ->
  session_turn env dev closed w
  = (Ok false, set_manager (drop dev (manager w)) w)
  /\ (forall i w', session_turn env dev i w = (Ok false, w') ->
        ~ In dev (PyDict.keys (active_connections (manager w')))
        /\ ~ In dev (PyDict.keys (device_registry (manager w'))))
  /\ (forall i, exists alive, fst (session_turn env dev i w) = Ok alive)
  /\ (forall i, quiet_since w (snd (session_turn env dev i w))).
Proof.
  intros H. apply synced_same_ids in H.
  split; [now apply session_turn_closed|].
  split; [|split].
  - intros i w' E.
    destruct (session_turn_cases env dev i w H) as [(w1 & E1)|(w1 & S1 & E1)];
      rewrite E1 in E; [discriminate|].
    injection E as <-. simpl. rewrite <- !mem_In_keys, !mem_remove.
    rewrite String.eqb_refl. simpl. split; discriminate.
  - intros i.
    destruct (session_turn_cases env dev i w H) as [(w1 & E1)|(w1 & S1 & E1)];
      rewrite E1; eauto.
  - intros i. apply session_turn_quiet.
Qed.

Lemma session_end_unregisters_witness :
  same_ids (manager Demo.two_devices)
  /\ session_turn Demo.env "d1" closed Demo.two_devices
     = (Ok false,
        set_manager (drop "d1" (manager Demo.two_devices)) Demo.two_devices).
Proof.
  assert (H : same_ids (manager Demo.two_devices)).
  { intros d. vm_compute. tauto. }
  split; [exact H|].
  exact (proj1 (session_end_unregisters Demo.env "d1" Demo.two_devices H)).
Defined.

(** C6 as stated fails: ["d1"] and ["d2"] are connected, the connection of
    ["d1"] closes, and no [device_status] event is broadcast. *)
Lemma no_status_after_close :
  ~ status_rebroadcast Demo.env "d1" Demo.two_devices.
Proof. vm_compute. intros (ids & t & ex & []). Qed.

(** ** What the record handlers do, step by step *)

Lemma insert_record_run env title0 value0 w :
  records w !! uuid4_at env (uuid_draws w) = None ->
  insert_record env title0 value0 w
  = (Ok (fresh_record env title0 value0 w),
     stored (fresh_record env title0 value0 w) (ticked 2 (drawn w))).
Proof.
  intros F. unfold insert_record, bind, uuid4, utcnow, add_commit. simpl.
  now rewrite F.
Qed.

Lemma create_data_run env payload w :
  synced (manager w) ->
  records w !! uuid4_at env (uuid_draws w) = None ->
  let r := fresh_record env (get_default payload "title" JNull)
             (get_default payload "value" (JInt 0)) w in
  create_data env payload w
  = (Ok (id r, 1),
     after_broadcast env
       (data_created (id r) (title r) (value r) (Some 1)
          (Some (utcnow_at env (S (S (clock_reads w))))))
       None (stored r (ticked 3 (drawn w)))).
Proof.
  intros S F r. unfold create_data, bind at 1.
  rewrite (insert_record_run _ _ _ _ F). fold r.
  unfold bind at 1, utcnow. simpl.
  unfold bind at 1. now rewrite broadcast_run.
Qed.

Lemma update_data_absent env rid payload w :
  records w !! rid = None ->
  update_data env rid payload w = (Raise (HTTPException 404 "Not found"), w).
Proof. intros H. unfold update_data, bind, query_first. now rewrite H. Qed.

Lemma update_data_conflict env rid payload r w :
  records w !! rid = Some r ->
  stale (get_default payload "version" (JInt 0)) r = true ->
  update_data env rid payload w = (Ok (version_conflict (version r)), w).
Proof.
  intros H S. unfold update_data, bind, query_first. now rewrite H, S.
Qed.

Lemma update_data_run env rid payload r w :
  synced (manager w) ->
  records w !! rid = Some r ->
  stale (get_default payload "version" (JInt 0)) r = false ->
  let r' := rest_patch payload (now env w) r in
  update_data env rid payload w
  = (Ok (updated (version r + 1)),
     after_broadcast env (updated_event r') None (stored r' (ticked 1 w))).
Proof.
  intros S H N r'. unfold update_data, bind at 1, query_first.
  rewrite H, N. unfold bind at 1, utcnow. fold (now env w). fold r'.
  unfold bind at 1, commit. unfold bind. now rewrite broadcast_run.
Qed.

Lemma replay_update_run env dev op rid kvs r w :
  synced (manager w) ->
  py_subscript op "type" = Ok (JStr "update") ->
  py_subscript op "record_id" = Ok (JStr rid) ->
  py_subscript op "data" = Ok (JObj kvs) ->
  records w !! rid = Some r ->
  let r' := offline_patch kvs (now env w) r in
  replay_op env dev op w
  = (Ok tt,
     after_broadcast env (replayed_event r') (Some dev) (stored r' (ticked 1 w))).
Proof.
  intros S T I D H r'. unfold replay_op, bind at 1, lift. rewrite T. simpl.
  unfold bind at 1. rewrite I. unfold bind at 1, query_first. rewrite H.
  unfold bind at 1, lift. rewrite D.
  unfold bind at 1, utcnow. fold (now env w). fold r'.
  unfold bind at 1, commit. unfold bind. now rewrite broadcast_run.
Qed.

Lemma replay_update_absent env dev op rid w :
  py_subscript op "type" = Ok (JStr "update") ->
  py_subscript op "record_id" = Ok (JStr rid) ->
  records w !! rid = None ->
  replay_op env dev op w = (Ok tt, w).
Proof.
  intros T I H. unfold replay_op, bind, lift, query_first.
  rewrite T. simpl. now rewrite I, H.
Qed.

Lemma replay_delete_absent env dev op rid w :
  py_subscript op "type" = Ok (JStr "delete") ->
  py_subscript op "record_id" = Ok (JStr rid) ->
  records w !! rid = None ->
  replay_op env dev op w = (Ok tt, w).
Proof.
  intros T I H. unfold replay_op, bind, lift, query_first.
  rewrite T. simpl. now rewrite I, H.
Qed.

Lemma replay_delete_run env dev op rid r w :
  synced (manager w) ->
  py_subscript op "type" = Ok (JStr "delete") ->
  py_subscript op "record_id" = Ok (JStr rid) ->
  records w !! rid = Some r ->
  replay_op env dev op w
  = (Ok tt,
     after_broadcast env (data_deleted (JStr rid) None) (Some dev)
       (erased (id r) w)).
Proof.
  intros S T I H. unfold replay_op, bind at 1, lift. rewrite T. simpl.
  unfold bind at 1. rewrite I. unfold bind at 1, query_first. rewrite H.
  unfold bind at 1, delete_commit. unfold bind. now rewrite broadcast_run.
Qed.

Lemma replay_create_run env dev op kvs w :
  synced (manager w) ->
  py_subscript op "type" = Ok (JStr "create") ->
  py_subscript op "data" = Ok (JObj kvs) ->
  records w !! uuid4_at env (uuid_draws w) = None ->
  let r := fresh_record env (get_default kvs "title" JNull)
             (get_default kvs "value" JNull) w in
  replay_op env dev op w
  = (Ok tt,
     after_broadcast env
       (data_created (id r) (title r) (value r) None None) (Some dev)
       (stored r (ticked 2 (drawn w)))).
Proof.
  intros S T D F r. unfold replay_op, bind at 1, lift. rewrite T. simpl.
  unfold bind at 1. rewrite D. simpl.
  unfold bind at 1, lift. unfold bind at 1. unfold bind at 1.
  rewrite (insert_record_run _ _ _ _ F). fold r.
  unfold bind. now rewrite broadcast_run.
Qed.

Lemma compute_request_run env dev data rid r f w :
  synced (manager w) ->
  py_get data "record_id" JNull = Ok (JStr rid) ->
  records w !! rid = Some r ->
  sqrt_abs_times_100 (value r) = Ok f ->
  let r' := compute_patch f (now env w) r in
  compute_request env dev data w
  = (Ok tt,
     after_broadcast env
       (compute_result (JStr rid) (JFloat f) (version r + 1) (now env w))
       (Some dev) (stored r' (ticked 1 w))).
Proof.
  intros S I H F r'. unfold compute_request, bind at 1, lift. rewrite I.
  unfold bind at 1, query_first. rewrite H.
  unfold bind at 1, lift. rewrite F.
  unfold bind at 1, utcnow. fold (now env w). fold r'.
  unfold bind at 1, commit. unfold bind. now rewrite broadcast_run.
Qed.

Lemma compute_request_absent env dev data rid w :
  py_get data "record_id" JNull = Ok (JStr rid) ->
  records w !! rid = None ->
  compute_request env dev data w = (Ok tt, w).
Proof.
  intros I H. unfold compute_request, bind, lift, query_first.
  now rewrite I, H.
Qed.

Lemma compute_request_raises env dev data rid r e w :
  py_get data "record_id" JNull = Ok (JStr rid) ->
  records w !! rid = Some r ->
  sqrt_abs_times_100 (value r) = Raise e ->
  compute_request env dev data w = (Raise e, w).
Proof.
  intros I H F. unfold compute_request, bind, lift, query_first.
  now rewrite I, H, F.
Qed.

(** ** C2: the version check of [update_data] *)

Lemma stale_spec expected r :
  stale expected r = true
  <-> py_eq_int expected 0 = false /\ py_eq_int expected (version r) = false.
Proof.
  unfold stale.
  destruct (py_eq_int expected 0), (py_eq_int expected (version r)); simpl;
    intuition congruence.
Qed.

Lemma update_data_not_conflict env rid payload r w cur :
  records w !! rid = Some r ->
  stale (get_default payload "version" (JInt 0)) r = false ->
  fst (update_data env rid payload w) <> Ok (version_conflict cur).
Proof.
  intros H S. unfold update_data, bind at 1, query_first. rewrite H, S.
  unfold bind at 1, utcnow. unfold bind at 1, commit. unfold bind at 1.
  match goal with |- context [broadcast ?e ?m ?x ?w0] =>
    destruct (broadcast e m x w0) as [[v|ex] w1]
  end; simpl; discriminate.
Qed.

(** C2. [update_data] on an id that has a row answers [version_conflict]
    exactly when the [version] of the payload (0 when the payload has none)
    is different from 0 and different from the row's version; for an integer
    [v] that is [v <> 0] and [v <> version]. The answer then carries the
    row's current version and the whole state (table, manager, clock, wire)
    is what it was before the call. On an id with no row the handler raises
    the 404 [HTTPException], the state unchanged. *)
Theorem conditional_update_conflict env rid payload w :
  let expected := get_default payload "version" (JInt 0) in
  match records w !! rid with
  | Some r =>
      ((exists cur,
           fst (update_data env rid payload w) = Ok (version_conflict cur))
       <-> py_eq_int expected 0 = false
           /\ py_eq_int expected (version r) = false)
      /\ (forall v, expected = JInt v ->
            (exists cur,
                fst (update_data env rid payload w) = Ok (version_conflict cur))
            <-> v <> 0 /\ v <> version r)
      /\ (py_eq_int expected 0 = false ->
          py_eq_int expected (version r) = false ->
          update_data env rid payload w
          = (Ok (version_conflict (version r)), w))
  | None =>
      update_data env rid payload w
      = (Raise (HTTPException 404 "Not found"), w)
  end.
Proof.
  intros expected. destruct (records w !! rid) as [r|] eqn:H.
  - assert (I : (exists cur,
                    fst (update_data env rid payload w)
                    = Ok (version_conflict cur))
                <-> py_eq_int expected 0 = false
                    /\ py_eq_int expected (version r) = false).
    { rewrite <- stale_spec. split.
      - intros (cur & E). destruct (stale expected r) eqn:S; [reflexivity|].
        exfalso. revert E. now apply update_data_not_conflict with (r := r).
      - intros S. exists (version r).
        now rewrite (update_data_conflict _ _ _ _ _ H S). }
    split; [exact I|]. split.
    + intros v E. rewrite I, E. simpl. rewrite !Z.eqb_neq. reflexivity.
    + intros A B. apply update_data_conflict; [exact H|].
      apply stale_spec. auto.
  - now apply update_data_absent.
Qed.

(** A stale integer version, a version given as a string, and a missing id,
    on the table holding one row at version 2. *)
Example conditional_update_runs :
  let w := stored (mkRecord "A" (JStr "t") (JInt 20) JNull 1000 1001 2)
             Demo.two_devices in
  update_data Demo.env "A" [("value", JInt 30); ("version", JInt 1)] w
  = (Ok (version_conflict 2), w)
  /\ update_data Demo.env "A" [("version", JStr "2")] w
     = (Ok (version_conflict 2), w)
  /\ update_data Demo.env "B" [("version", JInt 1)] w
     = (Raise (HTTPException 404 "Not found"), w)
  /\ fst (update_data Demo.env "A" [("version", JFloat (float_of_Z 2))] w)
     = Ok (updated 3).
Proof. vm_compute. repeat split. Qed.

(** ** C8: create, update, stale update *)

Lemma after_broadcast_synced env message ex w :
  synced (manager w) -> synced (manager (after_broadcast env message ex w)).
Proof. intros H. simpl. now apply prune_synced. Qed.

Lemma rest_patch_keeps payload t r :
  (PyDict.get "title" payload = None -> title (rest_patch payload t r) = title r)
  /\ (PyDict.get "value" payload = None ->
      value (rest_patch payload t r) = value r)
  /\ (PyDict.get "computed_result" payload = None ->
      computed_result (rest_patch payload t r) = computed_result r)
  /\ id (rest_patch payload t r) = id r
  /\ created_at (rest_patch payload t r) = created_at r.
Proof.
  unfold rest_patch, get_default. simpl.
  repeat split; intros E; now rewrite E.
Qed.

(** C8. On any state whose manager maps agree and where the id [A] drawn
    for the new row is unused: creating [{title: "t", value: 16}] answers
    id [A] and version 1; the update [{value: 20, version: 1}] of [A] then
    answers [updated] with version 2 and leaves the row with value 20, its
    title ["t"] and its empty [computed_result] as they were; the second
    update [{value: 30, version: 1}] answers [version_conflict] with current
    version 2 and changes nothing. *)
Theorem create_update_stale_update env w :
  same_ids (manager w) ->
  records w !! uuid4_at env (uuid_draws w) = None ->
  let A := uuid4_at env (uuid_draws w) in
  let w1 := snd (create_data env [("title", JStr "t"); ("value", JInt 16)] w) in
  let w2 :=
    snd (update_data env A [("value", JInt 20); ("version", JInt 1)] w1) in
  fst (create_data env [("title", JStr "t"); ("value", JInt 16)] w) = Ok (A, 1)
  /\ fst (update_data env A [("value", JInt 20); ("version", JInt 1)] w1)
     = Ok (updated 2)
  /\ records w2 !! A
     = Some (mkRecord A (JStr "t") (JInt 20) JNull (now env w)
               (utcnow_at env (3 + clock_reads w)) 2)
  /\ update_data env A [("value", JInt 30); ("version", JInt 1)] w2
     = (Ok (version_conflict 2), w2).
Proof.
  intros H F A w1 w2. apply synced_same_ids in H.
  set (r0 := mkRecord A (JStr "t") (JInt 16) JNull (now env w)
               (utcnow_at env (S (clock_reads w))) 1).
  assert (E1 : create_data env [("title", JStr "t"); ("value", JInt 16)] w
               = (Ok (A, 1),
                  after_broadcast env
                    (data_created A (JStr "t") (JInt 16) (Some 1)
                       (Some (utcnow_at env (S (S (clock_reads w))))))
                    None (stored r0 (ticked 3 (drawn w)))))
    by now rewrite create_data_run.
  assert (S1 : synced (manager w1)).
  { subst w1. rewrite E1. now apply after_broadcast_synced. }
  assert (L1 : records w1 !! A = Some r0).
  { subst w1. rewrite E1. simpl. apply lookup_insert_eq. }
  assert (E2 := update_data_run env A [("value", JInt 20); ("version", JInt 1)]
                  r0 w1 S1 L1 eq_refl).
  assert (C1 : now env w1 = utcnow_at env (3 + clock_reads w)).
  { subst w1. now rewrite E1. }
  simpl in E2. rewrite C1 in E2.
  set (r1 := rest_patch [("value", JInt 20); ("version", JInt 1)]
               (utcnow_at env (3 + clock_reads w)) r0) in *.
  assert (L2 : records w2 !! A = Some r1).
  { subst w2. rewrite E2. simpl. apply lookup_insert_eq. }
  split; [now rewrite E1|]. split; [now rewrite E2|].
  split; [exact L2|].
  now apply update_data_conflict with (r := r1).
Qed.

Lemma create_update_stale_update_witness :
  same_ids (manager Demo.two_devices)
  /\ records Demo.two_devices !! uuid4_at Demo.env (uuid_draws Demo.two_devices)
     = None
  /\ fst (create_data Demo.env [("title", JStr "t"); ("value", JInt 16)]
            Demo.two_devices)
     = Ok (uuid4_at Demo.env (uuid_draws Demo.two_devices), 1).
Proof.
  assert (H : same_ids (manager Demo.two_devices)).
  { intros d. vm_compute. tauto. }
  assert (F : records Demo.two_devices
              !! uuid4_at Demo.env (uuid_draws Demo.two_devices) = None)
    by reflexivity.
  split; [exact H|]. split; [exact F|].
  exact (proj1 (create_update_stale_update Demo.env Demo.two_devices H F)).
Defined.

(** ** C10: what an offline update touches *)



(** ** C4: replay of an offline queue *)

Lemma on_message_offline_queue env dev ops w :
  on_message env dev (offline_queue ops) w = for_each (replay_op env dev) ops w.
Proof. reflexivity. Qed.

Lemma on_message_compute env dev rid w :
  on_message env dev (compute_message rid) w
  = compute_request env dev (compute_message rid) w.
Proof. reflexivity. Qed.

(** A loop over [l1 ++ l2] runs [l1], then [l2] from the state [l1] left;
    when [l1] raises, the state it reached stays. *)
Lemma for_each_app {A} (body : A -> Act unit) l1 l2 w :
  for_each body (l1 ++ l2) w
  = match for_each body l1 w with
    | (Ok _, w1) => for_each body l2 w1
    | (Raise e, w1) => (Raise e, w1)
    end.
Proof.
  revert w. induction l1 as [|x l1 IH]; intros w; simpl; [reflexivity|].
  unfold bind. destruct (body x w) as [[[]|e] w1]; [apply IH | reflexivity].
Qed.

Lemma sweep_spares env message dev w :
  dev <> "" ->
  Forall (fun f => to f <> dev) (sweep_frames env message (Some dev) w).
Proof.
  intros N. apply List.Forall_forall. intros f I E.
  assert (T : In (to f, socket f)
                (targets (Some dev) (active_connections (manager w)))).
  { unfold sweep_frames in I.
    rewrite <- (frames_receivers env (send_calls w) message
                  (targets (Some dev) (active_connections (manager w)))).
    apply in_map_iff. exists f. auto. }
  apply filter_In in T as [_ T]. simpl in T.
  rewrite E, (excluded_nonempty _ N) in T. discriminate.
Qed.



(** An operation that raises stops the batch where it is: the row the
    create before it inserted is in the table, the delete after it did not
    run. *)
Example replay_is_not_atomic :
  let batch := [op_create [("title", JStr "a"); ("value", JInt 1)];
                JObj [("type", JStr "update")];
                op_delete "A"] in
  let out := on_message Demo.env "d1" (offline_queue batch) Demo.two_devices in
  fst out = Raise (KeyError "record_id")
  /\ (exists r, records (snd out) !! "A" = Some r /\ version r = 1).
Proof. vm_compute. split; [reflexivity | eexists; split; reflexivity]. Qed.

(** ** C5: compute requests *)

Lemma session_turn_ok env dev data w w' :
  on_message env dev data w = (Ok tt, w') ->
  session_turn env dev (text data) w = (Ok true, w').
Proof.
  intros E. unfold session_turn, try_except, bind, receive_json, ret.
  now rewrite E.
Qed.

Lemma session_turn_raised env dev data e w w1 :
  on_message env dev data w = (Raise e, w1) ->
  synced (manager w1) ->
  session_turn env dev (text data) w
  = (Ok false, set_manager (drop dev (manager w1)) w1).
Proof.
  intros E S. unfold session_turn, try_except, bind at 1, receive_json, ret.
  unfold bind at 1. rewrite E. unfold bind. now rewrite disconnect_run.
Qed.

(** [math.sqrt(abs(-25)) * 100] is the float 500. *)
Lemma sqrt_abs_times_100_example :
  sqrt_abs_times_100 (JInt (-25)) = Ok (float_of_Z 500)
  /\ sqrt_abs_times_100 (JFloat (float_of_Z (-25))) = Ok (float_of_Z 500).
Proof. split; reflexivity. Qed.

(** [abs(None)] raises, as does [abs] of a string. *)
Lemma sqrt_abs_times_100_null :
  sqrt_abs_times_100 JNull = Raise TypeError
  /\ forall s, sqrt_abs_times_100 (JStr s) = Raise TypeError.
Proof. split; reflexivity. Qed.

(** A compute request on a row whose [value] is a number: the row gets
    [computed_result = sqrt(|value|) * 100], its version goes up by one, its
    [updated_at] is the clock reading, the other rows stay, one
    [compute_result] event is broadcast with the requester excluded, and no
    frame goes to the requester. On an id with no row nothing at all
    changes and the session goes on. *)
Lemma compute_request_numeric env dev rid r f w :
  same_ids (manager w) ->
  dev <> "" ->
  records w !! rid = Some r ->
  id r = rid ->
  sqrt_abs_times_100 (value r) = Ok f ->
  let out := session_turn env dev (text (compute_message rid)) w in
  fst out = Ok true
  /\ records (snd out) !! rid
     = Some (mkRecord (id r) (title r) (value r) (JFloat f) (created_at r)
               (now env w) (version r + 1))
  /\ (forall k, k <> rid -> records (snd out) !! k = records w !! k)
  /\ broadcasts (snd out)
     = (broadcasts w
        ++ [(compute_result (JStr rid) (JFloat f) (version r + 1) (now env w),
             Some dev)])%list
  /\ exists fr, wire (snd out) = (wire w ++ fr)%list
                /\ Forall (fun f => to f <> dev) fr.
Proof.
  intros H N L E F out. apply synced_same_ids in H. subst rid.
  assert (R := compute_request_run env dev (compute_message (id r)) (id r) r f w
                 H eq_refl L F).
  simpl in R. rewrite <- on_message_compute in R.
  subst out. rewrite (session_turn_ok _ _ _ _ _ R). simpl.
  split; [reflexivity|]. split; [apply lookup_insert_eq|].
  split; [intros k Nk; now apply lookup_insert_ne|].
  split; [reflexivity|].
  eexists. split; [reflexivity|]. now apply sweep_spares.
Qed.

Lemma compute_request_missing env dev rid w :
  records w !! rid = None ->
  session_turn env dev (text (compute_message rid)) w = (Ok true, w).
Proof.
  intros L. apply session_turn_ok. rewrite on_message_compute.
  now apply compute_request_absent with (rid := rid).
Qed.

(** C5 at the failing input. Row ["A"] exists with a null [value]; the
    compute request of ["d1"] for it raises inside the handler: the session
    of ["d1"] ends and ["d1"] is unregistered, the row keeps version 1 and
    an empty [computed_result], and nothing is broadcast. *)
Theorem compute_on_null_value_ends_session :
  let w := after_valueless_create in
  let out := session_turn Demo.env "d1" (text (compute_message "A")) w in
  records w !! "A"
  = Some (mkRecord "A" (JStr "x") JNull JNull 1004 1005 1)
  /\ on_message Demo.env "d1" (compute_message "A") w = (Raise TypeError, w)
  /\ out = (Ok false, set_manager (drop "d1" (manager w)) w)
  /\ records (snd out) = records w
  /\ broadcasts (snd out) = broadcasts w
  /\ PyDict.mem "d1" (active_connections (manager (snd out))) = false.
Proof. vm_compute. repeat split. Qed.

(** ** C7: what a create stores *)




(** ** C1: the version and the timestamp along the life of a row *)

Lemma insert_record_taken env title0 value0 x w :
  records w !! uuid4_at env (uuid_draws w) = Some x ->
  fst (insert_record env title0 value0 w) = Raise IntegrityError.
Proof.
  intros F. unfold insert_record, bind, uuid4, utcnow, add_commit. simpl.
  now rewrite F.
Qed.

Lemma create_taken env c x w :
  records w !! uuid4_at env (uuid_draws w) = Some x ->
  fst (create env c w) = Raise IntegrityError.
Proof.
  intros F. destruct c as [payload|dev kvs].
  - unfold create, bind at 1, create_data, bind at 1.
    pose proof (insert_record_taken env (get_default payload "title" JNull)
                  (get_default payload "value" (JInt 0)) x w F) as R.
    destruct (insert_record env _ _ w) as [[a|e] w1]; simpl in R;
      [discriminate | simpl; now injection R as ->].
  - unfold create. rewrite on_message_offline_queue.
    unfold for_each, replay_op, insert_record, bind, lift, uuid4, utcnow,
      add_commit.
    simpl. now rewrite F.
Qed.

(** What a successful create leaves under a key that was free. *)
Lemma create_inv env c rid r w w' :
  synced (manager w) ->
  records w !! rid = None ->
  create env c w = (Ok tt, w') ->
  records w' !! rid = Some r ->
  id r = rid /\ version r = 1
  /\ updated_at r = utcnow_at env (S (clock_reads w))
  /\ (S (clock_reads w) < clock_reads w')%nat.
Proof.
  intros S N E L.
  destruct (records w !! uuid4_at env (uuid_draws w)) as [x|] eqn:F.
  { pose proof (create_taken env c x w F) as R. rewrite E in R. discriminate. }
  assert (K : forall r0 : DataRecord,
             id r0 = uuid4_at env (uuid_draws w) ->
             <[id r0 := r0]> (records w) !! rid = Some r ->
             id r = rid /\ r = r0).
  { intros r0 I L0. destruct (decide (id r0 = rid)) as [D|D].
    - rewrite D, lookup_insert_eq in L0. injection L0 as <-. auto.
    - rewrite lookup_insert_ne, N in L0 by exact D. discriminate. }
  destruct c as [payload|dev kvs].
  - unfold create, bind in E. rewrite (create_data_run env payload w S F) in E.
    injection E as <-. simpl in L.
    apply K in L as [I ->]; [|reflexivity]. simpl. repeat split; auto; lia.
  - unfold create in E. rewrite on_message_offline_queue in E. simpl in E.
    unfold bind in E.
    rewrite (replay_create_run env dev (op_create kvs) kvs w S eq_refl eq_refl F)
      in E.
    injection E as <-. simpl in L.
    apply K in L as [I ->]; [|reflexivity]. simpl. repeat split; auto; lia.
Qed.

(** What a successful mutation does to the row. *)
Lemma mutate_inv env rid m r r' w w' :
  synced (manager w) ->
  records w !! rid = Some r ->
  id r = rid ->
  mutate env rid m w = (Ok true, w') ->
  records w' !! rid = Some r' ->
  id r' = rid /\ version r' = version r + 1
  /\ updated_at r' = utcnow_at env (clock_reads w)
  /\ clock_reads w' = S (clock_reads w).
Proof.
  intros S L I E L'. subst rid. destruct m as [payload|dev kvs|dev].
  - unfold mutate, bind in E.
    destruct (stale (get_default payload "version" (JInt 0)) r) eqn:St.
    + rewrite (update_data_conflict env (id r) payload r w L St) in E.
      discriminate.
    + rewrite (update_data_run env (id r) payload r w S L St) in E.
      injection E as <-. simpl in L'. rewrite lookup_insert_eq in L'.
      injection L' as <-. repeat split.
  - unfold mutate, bind in E. rewrite on_message_offline_queue in E.
    cbn [for_each] in E. unfold bind in E.
    rewrite (replay_update_run env dev (op_update (id r) kvs) (id r) kvs r w
               S eq_refl eq_refl eq_refl L) in E.
    injection E as <-. simpl in L'. rewrite lookup_insert_eq in L'.
    injection L' as <-. repeat split.
  - unfold mutate, bind in E. rewrite on_message_compute in E.
    destruct (sqrt_abs_times_100 (value r)) as [f|e] eqn:F.
    + rewrite (compute_request_run env dev (compute_message (id r)) (id r) r f w
                 S eq_refl L F) in E.
      injection E as <-. simpl in L'. rewrite lookup_insert_eq in L'.
      injection L' as <-. repeat split.
    + rewrite (compute_request_raises env dev (compute_message (id r)) (id r)
                 r e w eq_refl L F) in E.
      discriminate.
Qed.

(** Creates and mutations do succeed: a create when the drawn id is unused,
    a REST update when the version check passes, an offline update always,
    a compute when the value is a number. *)
Lemma create_succeeds env c w :
  synced (manager w) ->
  records w !! uuid4_at env (uuid_draws w) = None ->
  exists w' r,
    create env c w = (Ok tt, w')
    /\ records w' !! uuid4_at env (uuid_draws w) = Some r
    /\ version r = 1.
Proof.
  intros Sy F. destruct c as [payload|dev kvs].
  - unfold create, bind. rewrite (create_data_run env payload w Sy F).
    eexists _, _. split; [reflexivity|]. simpl.
    split; [apply lookup_insert_eq | reflexivity].
  - unfold create. rewrite on_message_offline_queue. cbn [for_each].
    unfold bind.
    rewrite (replay_create_run env dev (op_create kvs) kvs w Sy eq_refl eq_refl F).
    eexists _, _. split; [reflexivity|]. simpl.
    split; [apply lookup_insert_eq | reflexivity].
Qed.

Lemma mutate_succeeds env rid m r w :
  synced (manager w) ->
  records w !! rid = Some r ->
  id r = rid ->
  match m with
  | by_put payload => stale (get_default payload "version" (JInt 0)) r = false
  | by_replay_update _ _ => True
  | by_compute _ => exists f, sqrt_abs_times_100 (value r) = Ok f
  end ->
  exists w' r',
    mutate env rid m w = (Ok true, w')
    /\ records w' !! rid = Some r'
    /\ version r' = version r + 1
    /\ updated_at r' = now env w.
Proof.
  intros Sy L I C. subst rid. destruct m as [payload|dev kvs|dev].
  - unfold mutate, bind. rewrite (update_data_run env (id r) payload r w Sy L C).
    eexists _, _. split; [reflexivity|]. simpl.
    split; [apply lookup_insert_eq | split; reflexivity].
  - unfold mutate, bind. rewrite on_message_offline_queue. cbn [for_each].
    unfold bind.
    rewrite (replay_update_run env dev (op_update (id r) kvs) (id r) kvs r w
               Sy eq_refl eq_refl eq_refl L).
    eexists _, _. split; [reflexivity|]. simpl.
    split; [apply lookup_insert_eq | split; reflexivity].
  - destruct C as [f F]. unfold mutate, bind. rewrite on_message_compute.
    rewrite (compute_request_run env dev (compute_message (id r)) (id r) r f w
               Sy eq_refl L F).
    eexists _, _. split; [reflexivity|]. simpl.
    split; [apply lookup_insert_eq | split; reflexivity].
Qed.

Lemma lived_history_ok env rid w hist :
  lived env rid w hist -> history_ok env rid w hist.
Proof.
  induction 1 as [c w w' r Sy N E L | m w w' r' hist Hl IH Sy E L
                  | w w' hist Hl IH Er Ec].
  - destruct (create_inv env c rid r w w' Sy N E L) as (I & V & U & C).
    split; [exists r, []; auto|]. split; [simpl; now rewrite V|].
    exists [S (clock_reads w)]. simpl. rewrite U.
    split; [reflexivity|]. split; [repeat constructor|].
    constructor; [exact C | constructor].
  - destruct IH as ((r & rest & -> & L0 & I0) & Vs & ks & Us & Ss & Fs).
    destruct (mutate_inv env rid m r r' w w' Sy L0 I0 E L) as (I & V & U & C).
    split; [exists r', (r :: rest); auto|].
    split.
    + change (version r' :: map version (r :: rest)
              = Z.of_nat (S (length (r :: rest)))
                :: countdown (length (r :: rest))).
      rewrite Vs. f_equal. rewrite V.
      simpl in Vs. injection Vs as Vr _. rewrite Vr. simpl length. lia.
    + exists (clock_reads w :: ks).
      split; [simpl; rewrite U; f_equal; exact Us|].
      split.
      * constructor; [exact Ss|].
        eapply List.Forall_impl; [|exact Fs]. simpl. intros k Hk. lia.
      * rewrite C. constructor; [lia|].
        eapply List.Forall_impl; [|exact Fs]. simpl. intros k Hk. lia.
  - destruct IH as ((r & rest & -> & L0 & I0) & Vs & ks & Us & Ss & Fs).
    split; [exists r, rest; rewrite Er; auto|].
    split; [exact Vs|].
    exists ks. split; [exact Us|]. split; [exact Ss|].
    eapply List.Forall_impl; [|exact Fs]. simpl. intros k Hk. lia.
Qed.

Lemma sorted_readings env ks :
  monotone_clock env ->
  StronglySorted gt ks ->
  StronglySorted Z.ge (map (utcnow_at env) ks).
Proof.
  intros M. induction 1 as [|k ks Hs IH Hf]; simpl; constructor; [exact IH|].
  apply List.Forall_forall. intros z Hz. apply in_map_iff in Hz as (k' & <- & Hk).
  rewrite List.Forall_forall in Hf. specialize (Hf k' Hk).
  apply Z.le_ge, M. lia.
Qed.


Lemma demo_clock_monotone : monotone_clock Demo.env.
Proof. intros i j H. simpl. lia. Qed.


(** * Further properties of the server *)

(** ** The maps of the manager list each device once, in the same order *)

Section KeysFacts.
Context {V : Type}.
Implicit Types (d : list (string * V)) (k : string).

Lemma keys_set k (v : V) d :
  PyDict.keys (PyDict.set k v d)
  = if PyDict.mem k d then PyDict.keys d else (PyDict.keys d ++ [k])%list.
Proof.
  unfold PyDict.mem, PyDict.keys. induction d as [|[k0 v0] d IH]; simpl.
  - reflexivity.
  - destruct (String.eqb_spec k0 k) as [->|Hne]; simpl; [reflexivity|].
    rewrite IH. now destruct (PyDict.get k d).
Qed.

Lemma keys_remove k d :
  PyDict.keys (PyDict.remove k d)
  = List.filter (fun k' => negb (String.eqb k' k)) (PyDict.keys d).
Proof.
  unfold PyDict.keys. induction d as [|[k0 v0] d IH]; simpl; [reflexivity|].
  destruct (String.eqb k0 k); simpl; now rewrite IH.
Qed.
End KeysFacts.

Lemma NoDup_filter_keys (f : string -> bool) l :
  NoDup l -> NoDup (List.filter f l).
Proof.
  induction 1 as [|x l Hx Hl IH]; simpl; [constructor|].
  destruct (f x); [|exact IH].
  constructor; [|exact IH]. rewrite list_elem_of_In, filter_In.
  rewrite list_elem_of_In in Hx. tauto.
Qed.

Lemma aligned_synced m : aligned m -> synced m.
Proof.
  intros [E _]. apply synced_same_ids. intros d. now rewrite E.
Qed.

Lemma drop_aligned d m : aligned m -> aligned (drop d m).
Proof.
  intros [E N]. split; simpl.
  - now rewrite !keys_remove, E.
  - rewrite keys_remove. now apply NoDup_filter_keys.
Qed.

Lemma prune_aligned failed m : aligned m -> aligned (prune failed m).
Proof.
  revert m. induction failed as [|d l IH]; simpl; intros m H; [exact H|].
  apply IH, drop_aligned, H.
Qed.

Lemma registered_aligned env websocket device_id w :
  aligned_world w -> aligned_world (registered env websocket device_id w).
Proof.
  intros H. pose proof (aligned_synced _ H) as S. destruct H as [E N].
  split; simpl.
  - rewrite !keys_set, <- (S device_id), E. reflexivity.
  - rewrite keys_set.
    destruct (PyDict.mem device_id (active_connections (manager w))) eqn:M;
      [exact N|].
    apply NoDup_app. split; [exact N|]. split; [|apply NoDup_singleton].
    intros x Hx Hx'. apply list_elem_of_In in Hx.
    apply mem_In_keys in Hx. apply list_elem_of_singleton in Hx'. subst x.
    congruence.
Qed.

Lemma aligned_hub_only : hub_only aligned_world.
Proof. intros w w' E _ H. unfold aligned_world. now rewrite E. Qed.

Lemma disconnect_aligned d : preserves aligned_world (disconnect d).
Proof.
  intros w H. rewrite (disconnect_run _ _ (aligned_synced _ H)). simpl.
  apply drop_aligned, H.
Qed.

Lemma broadcast_aligned env message ex :
  preserves aligned_world (broadcast env message ex).
Proof.
  intros w H. rewrite (broadcast_run _ _ _ _ (aligned_synced _ H)). simpl.
  apply prune_aligned, H.
Qed.

Lemma send_personal_message_aligned env d message :
  preserves aligned_world (send_personal_message env d message).
Proof.
  unfold send_personal_message.
  pres_step. { intros w H; exact H. }
  destruct (PyDict.get d (active_connections x)) as [c|]; [|pres_step].
  pres_step.
  - apply send_json_pres, aligned_hub_only.
  - apply disconnect_aligned.
Qed.

Lemma register_device_aligned device_id data :
  preserves aligned_world (register_device device_id data).
Proof.
  intros w H. unfold register_device, bind, lift, get_manager.
  destruct (py_get data "device_type" JNull) as [ty|e]; [|exact H].
  simpl.
  destruct (PyDict.get device_id (device_registry (manager w)))
    as [ent|] eqn:E; [|exact H].
  destruct H as [K N]. split; simpl; [|exact N].
  rewrite keys_set. unfold PyDict.mem. now rewrite E.
Qed.

Lemma connect_aligned env websocket accepted device_id :
  preserves aligned_world (connect env websocket accepted device_id).
Proof.
  intros w H. destruct accepted.
  - rewrite connect_run. unfold broadcast_status.
    assert (P : preserves aligned_world
                  (m <- get_manager ;; t <- utcnow env ;;
                   broadcast env
                     (device_status (PyDict.keys (device_registry m)) t) None ;;
                   ret tt)).
    { pres_step. { intros w0 H0; exact H0. }
      pres_step. { apply utcnow_pres, aligned_hub_only. }
      pres_step. { apply broadcast_aligned. }
      pres_step. }
    apply P, registered_aligned, H.
  - rewrite connect_refused. exact H.
Qed.

(** X1. When both maps of the manager list each device id once and in the
    same order, they still do after [connect], after [broadcast], after a
    turn of any session (whatever the message, and also when the session
    ends), and after each REST handler. The empty manager is such a state. *)
Theorem manager_maps_stay_aligned env w :
  aligned (manager w) ->
  (forall websocket accepted d,
      aligned (manager (snd (connect env websocket accepted d w))))
  /\ (forall message ex, aligned (manager (snd (broadcast env message ex w))))
  /\ (forall d i, aligned (manager (snd (session_turn env d i w))))
  /\ (forall payload, aligned (manager (snd (create_data env payload w))))
  /\ (forall rid payload,
         aligned (manager (snd (update_data env rid payload w))))
  /\ (forall rid, aligned (manager (snd (delete_data env rid w))))
  /\ aligned (manager Demo.start).
Proof.
  intros H.
  split; [intros; now apply connect_aligned|].
  split; [intros; now apply broadcast_aligned|].
  split.
  { intros d i.
    apply (session_turn_pres env aligned_world);
      auto using aligned_hub_only, disconnect_aligned, register_device_aligned.
    - intros; apply broadcast_aligned.
    - intros; apply send_personal_message_aligned. }
  split.
  { intros. apply (create_data_pres env aligned_world);
      auto using aligned_hub_only. intros; apply broadcast_aligned. }
  split.
  { intros. apply (update_data_pres env aligned_world);
      auto using aligned_hub_only. intros; apply broadcast_aligned. }
  split.
  { intros. apply (delete_data_pres env aligned_world);
      auto using aligned_hub_only. intros; apply broadcast_aligned. }
  split; [reflexivity | constructor].
Qed.

Lemma two_devices_aligned : aligned (manager Demo.two_devices).
Proof.
  split; [reflexivity|]. vm_compute.
  repeat constructor; rewrite list_elem_of_In; simpl; intuition discriminate.
Qed.

Lemma manager_maps_stay_aligned_witness :
  aligned (manager Demo.two_devices)
  /\ aligned (manager (snd (session_turn Demo.env "d1" closed
                              Demo.two_devices))).
Proof.
  split; [exact two_devices_aligned|].
  exact (proj1 (proj2 (proj2 (manager_maps_stay_aligned Demo.env
                                Demo.two_devices two_devices_aligned)))
           "d1" closed).
Defined.

(** ** Rows stay filed under their own id *)

Ltac handler_pres prim :=
  repeat (first
    [ pres_step
    | progress prim
    | match goal with
      | |- preserves _ (match ?x with _ => _ end) => destruct x
      | |- preserves _ (if ?b then _ else _) => destruct b
      end ]).

(** The manager, the transport and the clock leave the table alone. *)
Section TableActions.
Context (env : Env) (P : World -> Prop) (HP : table_only P).

Lemma utcnow_table : preserves P (utcnow env).
Proof. intros w H. eapply HP; [|exact H]. reflexivity. Qed.

Lemma uuid4_table : preserves P (uuid4 env).
Proof. intros w H. eapply HP; [|exact H]. reflexivity. Qed.

Lemma send_json_table d c message : preserves P (send_json env d c message).
Proof. intros w H. eapply HP; [|exact H]. reflexivity. Qed.

Lemma query_first_table k : preserves P (query_first k).
Proof. intros w H. destruct k; exact H. Qed.

Lemma query_all_table : preserves P query_all.
Proof. intros w H. exact H. Qed.

Lemma get_manager_table : preserves P get_manager.
Proof. intros w H. exact H. Qed.

Lemma disconnect_table d : preserves P (disconnect d).
Proof.
  intros w Hw. unfold disconnect, bind, get_manager, lift, put_manager, ret.
  unfold PyDict.del.
  destruct (PyDict.mem d (active_connections (manager w))); [|exact Hw].
  simpl. destruct (PyDict.mem d (device_registry (manager w))); simpl;
    (eapply HP; [|exact Hw]; reflexivity).
Qed.

Lemma broadcast_table message ex : preserves P (broadcast env message ex).
Proof.
  unfold broadcast.
  pres_step. { intros w H. eapply HP; [|exact H]. reflexivity. }
  pres_step. { apply get_manager_table. }
  pres_step.
  { intros w H. rewrite sweep_run. eapply HP; [|exact H]. reflexivity. }
  pres_step. { pres_step. apply disconnect_table. }
  pres_step.
Qed.

Lemma send_personal_message_table d message :
  preserves P (send_personal_message env d message).
Proof.
  unfold send_personal_message.
  pres_step. { apply get_manager_table. }
  destruct (PyDict.get d (active_connections x)) as [c|]; [|pres_step].
  pres_step; [apply send_json_table | apply disconnect_table].
Qed.

Lemma register_device_table d data : preserves P (register_device d data).
Proof.
  intros w H. unfold register_device, bind, lift, get_manager.
  destruct (py_get data "device_type" JNull) as [ty|e]; [|exact H].
  simpl.
  destruct (PyDict.get d (device_registry (manager w))); [|exact H].
  eapply HP; [|exact H]. reflexivity.
Qed.
End TableActions.

Lemma keyed_table_only : table_only keyed.
Proof. intros w w' E H k r. rewrite E. apply H. Qed.

Lemma commit_keyed r : preserves keyed (commit r).
Proof.
  intros w H k x. simpl. destruct (decide (id r = k)) as [<-|N].
  - rewrite lookup_insert_eq. now intros [= <-].
  - rewrite lookup_insert_ne by exact N. apply H.
Qed.

Lemma add_commit_keyed r : preserves keyed (add_commit r).
Proof.
  intros w H. unfold add_commit. destruct (records w !! id r); [exact H|].
  now apply (commit_keyed r).
Qed.

Lemma delete_commit_keyed r : preserves keyed (delete_commit r).
Proof.
  intros w H k x. simpl. destruct (decide (id r = k)) as [<-|N].
  - now rewrite lookup_delete_eq.
  - rewrite lookup_delete_ne by exact N. apply H.
Qed.

Ltac keyed_prim env :=
  first
    [ apply (utcnow_table env keyed keyed_table_only)
    | apply (uuid4_table env keyed keyed_table_only)
    | apply (query_first_table keyed)
    | apply (query_all_table keyed)
    | apply (broadcast_table env keyed keyed_table_only)
    | apply (disconnect_table keyed keyed_table_only)
    | apply (send_personal_message_table env keyed keyed_table_only)
    | apply (register_device_table keyed keyed_table_only)
    | apply commit_keyed | apply add_commit_keyed | apply delete_commit_keyed ].

Lemma replay_op_keyed env dev op : preserves keyed (replay_op env dev op).
Proof. unfold replay_op, insert_record. handler_pres ltac:(keyed_prim env). Qed.

Lemma on_message_keyed env dev data : preserves keyed (on_message env dev data).
Proof.
  unfold on_message, sync_request, sync_offline_queue, compute_request.
  handler_pres ltac:(first [keyed_prim env | apply replay_op_keyed]).
Qed.



(** ** The health check counts the registered devices *)

Lemma length_remove_present {V} k (d : list (string * V)) :
  NoDup (PyDict.keys d) ->
  PyDict.mem k d = true ->
  S (length (PyDict.remove k d)) = length d.
Proof.
  unfold PyDict.mem, PyDict.keys.
  induction d as [|[k0 v0] d IH]; simpl; [discriminate|].
  intros N M. apply NoDup_cons in N as [N0 N].
  destruct (String.eqb_spec k0 k) as [->|Hne].
  - rewrite (remove_absent k d); [reflexivity|]. unfold PyDict.mem.
    destruct (PyDict.get k d) eqn:G; [|reflexivity].
    exfalso. apply N0. apply list_elem_of_In.
    apply (mem_In_keys k d). unfold PyDict.mem. now rewrite G.
  - simpl. f_equal. now apply IH.
Qed.

Lemma health_check_run env w :
  health_check env w
  = (Ok (length (active_connections (manager w)), now env w), ticked 1 w).
Proof. reflexivity. Qed.

(** X3. The health check answers the number of live connections and the
    clock reading, and changes neither the table nor the manager. On a
    manager whose maps are aligned that number is the number of ids a
    [device_status] event lists, it goes down by exactly one when the
    session of a registered device ends, and it stays when the device of the
    ending session was not registered. *)
Theorem health_check_counts_devices env w :
  aligned (manager w) ->
  let count := fun w0 => length (active_connections (manager w0)) in
  fst (health_check env w) = Ok (count w, now env w)
  /\ records (snd (health_check env w)) = records w
  /\ manager (snd (health_check env w)) = manager w
  /\ count w = length (PyDict.keys (device_registry (manager w)))
  /\ (forall d,
        PyDict.mem d (active_connections (manager w)) = true ->
        S (count (snd (session_turn env d closed w))) = count w)
  /\ (forall d,
        PyDict.mem d (active_connections (manager w)) = false ->
        count (snd (session_turn env d closed w)) = count w).
Proof.
  intros H count. pose proof (aligned_synced _ H) as Sy.
  destruct H as [E N].
  split; [reflexivity|]. split; [reflexivity|]. split; [reflexivity|].
  split.
  { unfold count. rewrite <- E. unfold PyDict.keys. now rewrite length_map. }
  split; intros d M; unfold count;
    rewrite (session_turn_closed env d w Sy); simpl.
  - now apply length_remove_present.
  - now rewrite remove_absent.
Qed.

Lemma health_check_counts_devices_witness :
  aligned (manager Demo.two_devices)
  /\ fst (health_check Demo.env Demo.two_devices) = Ok (2%nat, 1004).
Proof.
  split; [exact two_devices_aligned|].
  exact (proj1 (health_check_counts_devices Demo.env Demo.two_devices
                  two_devices_aligned)).
Defined.

(** ** Who a broadcast reaches *)

Lemma map_fst_filter_keys {V} (g : string -> bool) (l : list (string * V)) :
  map fst (List.filter (fun c => g (fst c)) l) = List.filter g (map fst l).
Proof.
  induction l as [|[k v] l IH]; simpl; [reflexivity|].
  destruct (g k); simpl; now rewrite IH.
Qed.

Lemma sweep_receivers env message ex w :
  map to (sweep_frames env message ex w)
  = List.filter (fun d => negb (is_excluded ex d))
      (PyDict.keys (active_connections (manager w))).
Proof.
  unfold sweep_frames.
  transitivity
    (map fst
       (map (fun f => (to f, socket f))
          (frames env (send_calls w) message
             (targets ex (active_connections (manager w)))))).
  { now rewrite map_map. }
  rewrite frames_receivers. unfold targets, PyDict.keys.
  apply (map_fst_filter_keys (fun d => negb (is_excluded ex d))).
Qed.

(** X4. On a manager that lists each device once, one [broadcast] call
    makes at most one [send_json] call per device: no device id occurs twice
    among the receivers of its frames. *)
Theorem broadcast_sends_once_per_device env message ex w :
  aligned (manager w) ->
  NoDup (map to (sweep_frames env message ex w))
  /\ wire (snd (broadcast env message ex w))
     = (wire w ++ sweep_frames env message ex w)%list.
Proof.
  intros H. split.
  - rewrite sweep_receivers. apply NoDup_filter_keys, H.
  - now rewrite (broadcast_run _ _ _ _ (aligned_synced _ H)).
Qed.

Lemma broadcast_sends_once_per_device_witness :
  aligned (manager Demo.two_devices)
  /\ NoDup (map to (sweep_frames Demo.lossy (data_deleted (JStr "A") None)
                      (Some "d1") Demo.two_devices)).
Proof.
  split; [exact two_devices_aligned|].
  exact (proj1 (broadcast_sends_once_per_device Demo.lossy
                  (data_deleted (JStr "A") None) (Some "d1")
                  Demo.two_devices two_devices_aligned)).
Defined.

Lemma existsb_eqb_In d l : In d l -> existsb (String.eqb d) l = true.
Proof.
  intros H. apply existsb_exists. exists d. split; [exact H|].
  apply String.eqb_refl.
Qed.

(** X5. A device whose send failed during a broadcast is unregistered when
    that call returns, and no later broadcast, whatever its event and its
    excluded device, makes a send to it; a device whose send did not fail
    and that was registered is still registered. *)
Theorem failed_device_gets_no_more env message ex w :
  same_ids (manager w) ->
  let w' := snd (broadcast env message ex w) in
  (forall d, In d (failures (sweep_frames env message ex w)) ->
     PyDict.mem d (active_connections (manager w')) = false
     /\ PyDict.mem d (device_registry (manager w')) = false
     /\ forall message' ex' f,
          In f (sweep_frames env message' ex' w') -> to f <> d)
  /\ (forall d, ~ In d (failures (sweep_frames env message ex w)) ->
        PyDict.mem d (active_connections (manager w'))
        = PyDict.mem d (active_connections (manager w))).
Proof.
  intros H w'. apply synced_same_ids in H.
  subst w'. rewrite (broadcast_run _ _ _ _ H). simpl.
  fold (sweep_frames env message ex w).
  set (fl := failures (sweep_frames env message ex w)).
  split.
  - intros d I.
    destruct (mem_prune d fl (manager w)) as [A R].
    rewrite (existsb_eqb_In _ _ I), andb_false_r in A, R.
    split; [exact A|]. split; [exact R|].
    intros message' ex' f If Hto.
    assert (T : In (to f)
                  (map to (sweep_frames env message' ex'
                             (after_broadcast env message ex w))))
      by (apply in_map; exact If).
    rewrite sweep_receivers in T. apply filter_In in T as [T _].
    simpl in T. fold (sweep_frames env message ex w) in T. fold fl in T.
    apply mem_In_keys in T. rewrite Hto in T. congruence.
  - intros d N.
    destruct (mem_prune d fl (manager w)) as [A _]. rewrite A.
    destruct (existsb (String.eqb d) fl) eqn:X.
    + exfalso. apply N. apply existsb_exists in X as (x & Ix & Ex).
      apply String.eqb_eq in Ex. now subst x.
    + apply andb_true_r.
Qed.

Lemma failed_device_gets_no_more_witness :
  same_ids (manager Demo.two_devices)
  /\ PyDict.mem "d2"
       (active_connections
          (manager (snd (broadcast flaky (data_deleted (JStr "A") None)
                           None Demo.two_devices)))) = false.
Proof.
  assert (H : same_ids (manager Demo.two_devices)).
  { intros d. vm_compute. tauto. }
  split; [exact H|].
  apply (proj1 (failed_device_gets_no_more flaky
                  (data_deleted (JStr "A") None) None Demo.two_devices H)).
  vm_compute. auto.
Defined.

(** ** Connecting and registering a device *)

Section DictLookups.
Context {V : Type}.
Implicit Types (d : list (string * V)) (k : string).

Lemma get_set k k' (v : V) d :
  PyDict.get k' (PyDict.set k v d)
  = if String.eqb k k' then Some v else PyDict.get k' d.
Proof.
  induction d as [|[k0 v0] d IH]; simpl.
  - destruct (String.eqb k k'); reflexivity.
  - destruct (String.eqb_spec k0 k) as [->|Hne]; simpl.
    + destruct (String.eqb k k'); reflexivity.
    + destruct (String.eqb_spec k0 k') as [->|Hne'].
      * destruct (String.eqb_spec k k') as [->|]; [congruence | reflexivity].
      * exact IH.
Qed.

Lemma get_remove k k' d :
  PyDict.get k' (PyDict.remove k d)
  = if String.eqb k k' then None else PyDict.get k' d.
Proof.
  induction d as [|[k0 v0] d IH]; simpl.
  - destruct (String.eqb k k'); reflexivity.
  - destruct (String.eqb_spec k0 k) as [->|Hne]; simpl.
    + rewrite IH. destruct (String.eqb_spec k k') as [->|]; reflexivity.
    + destruct (String.eqb_spec k0 k') as [->|Hne'].
      * destruct (String.eqb_spec k k') as [->|]; [congruence | reflexivity].
      * exact IH.
Qed.
End DictLookups.

Lemma get_prune d l m :
  PyDict.get d (active_connections (prune l m))
  = (if existsb (String.eqb d) l then None
     else PyDict.get d (active_connections m))
  /\ PyDict.get d (device_registry (prune l m))
     = (if existsb (String.eqb d) l then None
        else PyDict.get d (device_registry m)).
Proof.
  revert m. induction l as [|k l IH]; intros m; simpl; [auto|].
  destruct (IH (drop k m)) as [a b]. rewrite a, b. simpl.
  rewrite !get_remove, (String.eqb_sym k d).
  destruct (String.eqb d k), (existsb (String.eqb d) l); auto.
Qed.

Lemma not_In_existsb d l : ~ In d l -> existsb (String.eqb d) l = false.
Proof.
  intros N. destruct (existsb (String.eqb d) l) eqn:X; [|reflexivity].
  exfalso. apply N. apply existsb_exists in X as (x & Ix & Ex).
  apply String.eqb_eq in Ex. now subst x.
Qed.

Lemma after_broadcast_manager env message ex w :
  manager (after_broadcast env message ex w)
  = prune (failures (sweep_frames env message ex w)) (manager w).
Proof. reflexivity. Qed.

Lemma connect_accepted_run env websocket d w :
  synced (manager w) ->
  connect env websocket true d w = (Ok tt, connected env websocket d w).
Proof.
  intros H. rewrite connect_run. unfold broadcast_status, bind at 1, get_manager.
  unfold bind at 1, utcnow. unfold bind.
  rewrite broadcast_run by (now apply (registered_synced env websocket d w)).
  reflexivity.
Qed.

(** X6. An accepted [connect] on a manager whose maps agree returns
    normally and makes one broadcast, of a [device_status] event with no
    excluded device; the event lists the ids registered once the new one is
    added, the new id among them and only once more than before (a known id
    keeps its place); the new connection itself is sent the event on its own
    socket. Unless its own send fails, the device is then mapped to the new
    socket and to a registry entry of type ["unknown"], stamped with the
    clock reading, with no [last_sync]; the entries of the other devices
    whose sends did not fail are as before. A refused handshake raises and
    changes nothing. *)
Theorem connect_registers_and_announces env websocket d w :
  same_ids (manager w) ->
  let w' := snd (connect env websocket true d w) in
  let ev := status_event env websocket d w in
  let fr := sweep_frames env ev None (ticked 1 (registered env websocket d w)) in
  fst (connect env websocket true d w) = Ok tt
  /\ broadcasts w' = (broadcasts w ++ [(ev, None)])%list
  /\ wire w' = (wire w ++ fr)%list
  /\ records w' = records w
  /\ (exists ids t, ev = device_status ids t /\ In d ids
        /\ ids = if PyDict.mem d (device_registry (manager w))
                 then PyDict.keys (device_registry (manager w))
                 else (PyDict.keys (device_registry (manager w)) ++ [d])%list)
  /\ (exists f, In f fr /\ to f = d /\ socket f = websocket /\ event f = ev)
  /\ (~ In d (failures fr) ->
      PyDict.get d (active_connections (manager w')) = Some websocket
      /\ PyDict.get d (device_registry (manager w'))
         = Some (mkEntry (JStr "unknown") (now env w) JNull))
  /\ (forall d', d' <> d -> ~ In d' (failures fr) ->
        PyDict.get d' (active_connections (manager w'))
        = PyDict.get d' (active_connections (manager w))
        /\ PyDict.get d' (device_registry (manager w'))
           = PyDict.get d' (device_registry (manager w)))
  /\ connect env websocket false d w = (Raise WebSocketDisconnect, w).
Proof.
  intros H w' ev fr. apply synced_same_ids in H.
  subst w'. rewrite (connect_accepted_run env websocket d w H).
  unfold connected. fold ev. simpl fst. simpl snd.
  split; [reflexivity|]. split; [reflexivity|]. split; [reflexivity|].
  split; [reflexivity|].
  split.
  { eexists _, _. split; [reflexivity|]. simpl. rewrite keys_set. split.
    - destruct (PyDict.mem d (device_registry (manager w))) eqn:M.
      + now apply mem_In_keys.
      + apply in_or_app. right. now left.
    - reflexivity. }
  split.
  { assert (T : In (d, websocket)
                  (targets None
                     (active_connections
                        (manager (ticked 1 (registered env websocket d w)))))).
    { apply filter_In. split; [|reflexivity]. simpl.
      clear. induction (active_connections (manager w)) as [|[k v] l IH];
        simpl; [now left|].
      destruct (String.eqb_spec k d) as [->|]; [now left | right; exact IH]. }
    unfold fr, sweep_frames.
    rewrite <- (frames_receivers env
                  (send_calls (ticked 1 (registered env websocket d w))) ev)
      in T.
    apply in_map_iff in T as (f & E & If). exists f.
    injection E as E1 E2.
    split; [exact If|]. split; [exact E1|]. split; [exact E2|].
    pose proof (frames_event env
                  (send_calls (ticked 1 (registered env websocket d w))) ev
                  (targets None
                     (active_connections
                        (manager (ticked 1 (registered env websocket d w))))))
      as Fe.
    rewrite List.Forall_forall in Fe. now apply Fe. }
  split.
  { intros N. rewrite after_broadcast_manager. fold fr.
    destruct (get_prune d (failures fr)
                (manager (ticked 1 (registered env websocket d w)))) as [a b].
    rewrite a, b, (not_In_existsb _ _ N). simpl.
    now rewrite !get_set, String.eqb_refl. }
  split; [|reflexivity].
  intros d' Nd N. rewrite after_broadcast_manager. fold fr.
  destruct (get_prune d' (failures fr)
              (manager (ticked 1 (registered env websocket d w)))) as [a b].
  rewrite a, b, (not_In_existsb _ _ N). simpl.
  rewrite !get_set.
  destruct (String.eqb_spec d d') as [->|]; [congruence | auto].
Qed.

Lemma connect_registers_and_announces_witness :
  same_ids (manager Demo.two_devices)
  /\ fst (connect Demo.env 3%nat true "d3" Demo.two_devices) = Ok tt.
Proof.
  assert (H : same_ids (manager Demo.two_devices)).
  { intros d. vm_compute. tauto. }
  split; [exact H|].
  exact (proj1 (connect_registers_and_announces Demo.env 3%nat "d3"
                  Demo.two_devices H)).
Defined.

Lemma on_message_register env dev ty w :
  on_message env dev (register_message ty) w
  = register_device dev (register_message ty) w.
Proof. reflexivity. Qed.

(** X7. A [register_device] message from a device that has a registry entry
    stores the [device_type] of the message as the type of that entry and
    keeps its [connected_at] and [last_sync]; the entries of the other
    devices, the connections, the table, the wire and the broadcast log stay
    as they were, and the session goes on. From a device that has no
    registry entry (it was pruned after a failed send) the message raises
    inside the handler: the session ends, and the state stays as it was. *)
Theorem register_device_sets_type env dev ty w :
  same_ids (manager w) ->
  match PyDict.get dev (device_registry (manager w)) with
  | Some e =>
      let e' := mkEntry ty (connected_at e) (last_sync e) in
      let w' := snd (session_turn env dev (text (register_message ty)) w) in
      session_turn env dev (text (register_message ty)) w
      = (Ok true,
         set_manager
           (mkManager (active_connections (manager w))
              (PyDict.set dev e' (device_registry (manager w)))) w)
      /\ PyDict.get dev (device_registry (manager w')) = Some e'
      /\ (forall d', d' <> dev ->
            PyDict.get d' (device_registry (manager w'))
            = PyDict.get d' (device_registry (manager w)))
      /\ PyDict.keys (device_registry (manager w'))
         = PyDict.keys (device_registry (manager w))
  | None =>
      session_turn env dev (text (register_message ty)) w = (Ok false, w)
  end.
Proof.
  intros H. apply synced_same_ids in H.
  destruct (PyDict.get dev (device_registry (manager w))) as [e|] eqn:G.
  - assert (R : on_message env dev (register_message ty) w
                = (Ok tt,
                   set_manager
                     (mkManager (active_connections (manager w))
                        (PyDict.set dev
                           (mkEntry ty (connected_at e) (last_sync e))
                           (device_registry (manager w)))) w)).
    { rewrite on_message_register.
      unfold register_device, bind, lift, get_manager, put_manager. simpl.
      now rewrite G. }
    intros e' w'. subst w'. rewrite (session_turn_ok _ _ _ _ _ R). simpl.
    split; [reflexivity|].
    split; [now rewrite get_set, String.eqb_refl|].
    split.
    + intros d' N. rewrite get_set.
      destruct (String.eqb_spec dev d') as [->|]; [congruence | reflexivity].
    + rewrite keys_set. unfold PyDict.mem. now rewrite G.
  - assert (R : on_message env dev (register_message ty) w
                = (Raise (KeyError dev), w)).
    { rewrite on_message_register.
      unfold register_device, bind, lift, get_manager. simpl. now rewrite G. }
    rewrite (session_turn_raised _ _ _ _ _ _ R H).
    assert (M : PyDict.mem dev (active_connections (manager w)) = false).
    { rewrite (H dev). unfold PyDict.mem. now rewrite G. }
    unfold drop. rewrite (remove_absent _ _ M).
    rewrite (H dev) in M. rewrite (remove_absent _ _ M).
    destruct w as [r [ac reg] c u s wi b]. reflexivity.
Qed.

Lemma register_device_sets_type_witness :
  same_ids (manager Demo.two_devices)
  /\ session_turn Demo.env "d3" (text (register_message (JStr "mobile")))
       Demo.two_devices
     = (Ok false, Demo.two_devices).
Proof.
  assert (H : same_ids (manager Demo.two_devices)).
  { intros d. vm_compute. tauto. }
  split; [exact H|].
  exact (register_device_sets_type Demo.env "d3" (JStr "mobile")
           Demo.two_devices H).
Defined.

(** ** Answering a sync request *)

Lemma all_rows_spec w r :
  In r (all_rows w) <-> exists k, records w !! k = Some r.
Proof.
  unfold all_rows. rewrite in_map_iff. split.
  - intros ([k x] & E & I). simpl in E. subst x. exists k.
    apply list_elem_of_In in I. now apply elem_of_map_to_list in I.
  - intros (k & L). exists (k, r). split; [reflexivity|].
    apply list_elem_of_In. now apply elem_of_map_to_list.
Qed.

Lemma on_message_sync_request env dev w :
  on_message env dev sync_request_message w = sync_request env dev w.
Proof. reflexivity. Qed.



(** ** Deleting and updating rows over REST *)

Lemma delete_data_run env rid r w :
  synced (manager w) ->
  records w !! rid = Some r ->
  delete_data env rid w
  = (Ok tt,
     after_broadcast env (data_deleted (JStr rid) (Some (now env w))) None
       (ticked 1 (erased (id r) w))).
Proof.
  intros S L. unfold delete_data, bind at 1, query_first. rewrite L.
  unfold bind at 1, delete_commit. unfold bind at 1, utcnow.
  unfold bind. now rewrite broadcast_run.
Qed.

Lemma delete_data_absent env rid w :
  records w !! rid = None ->
  delete_data env rid w = (Raise (HTTPException 404 "Not found"), w).
Proof. intros L. unfold delete_data, bind, query_first. now rewrite L. Qed.

(** X9. [delete_data] on an id that has a row, filed under its own id,
    returns normally, removes that row and no other, and makes one
    broadcast, of [data_deleted] for that id with the clock reading and no
    excluded device; a second delete of the same id, and an update of it,
    then raise the 404 [HTTPException]. On an id with no row it raises the
    404 and changes nothing. *)
Theorem delete_data_removes_row env rid w :
  same_ids (manager w) ->
  match records w !! rid with
  | Some r =>
      id r = rid ->
      let w' := snd (delete_data env rid w) in
      fst (delete_data env rid w) = Ok tt
      /\ records w' !! rid = None
      /\ (forall k, k <> rid -> records w' !! k = records w !! k)
      /\ broadcasts w'
         = (broadcasts w
            ++ [(data_deleted (JStr rid) (Some (now env w)), None)])%list
      /\ delete_data env rid w' = (Raise (HTTPException 404 "Not found"), w')
      /\ (forall payload,
            update_data env rid payload w'
            = (Raise (HTTPException 404 "Not found"), w'))
  | None =>
      delete_data env rid w = (Raise (HTTPException 404 "Not found"), w)
  end.
Proof.
  intros H. apply synced_same_ids in H.
  destruct (records w !! rid) as [r|] eqn:L; [|now apply delete_data_absent].
  intros I w'. subst w'. rewrite (delete_data_run env rid r w H L). rewrite I.
  simpl fst. simpl snd.
  assert (G : records
                (after_broadcast env (data_deleted (JStr rid) (Some (now env w)))
                   None (ticked 1 (erased rid w))) !! rid = None)
    by apply lookup_delete_eq.
  split; [reflexivity|]. split; [exact G|].
  split; [intros k N; simpl; now apply lookup_delete_ne|].
  split; [reflexivity|].
  split; [now apply delete_data_absent|].
  intros payload. now apply update_data_absent.
Qed.

Lemma delete_data_removes_row_witness :
  same_ids (manager life_0)
  /\ records life_0 !! "A" = Some (row life_0)
  /\ id (row life_0) = "A"
  /\ fst (delete_data Demo.env "A" life_0) = Ok tt.
Proof.
  assert (H : same_ids (manager life_0)).
  { intros d. vm_compute. tauto. }
  assert (L : records life_0 !! "A" = Some (row life_0))
    by (vm_compute; reflexivity).
  assert (I : id (row life_0) = "A") by (vm_compute; reflexivity).
  split; [exact H|]. split; [exact L|]. split; [exact I|].
  pose proof (delete_data_removes_row Demo.env "A" life_0 H) as T.
  rewrite L in T. exact (proj1 (T I)).
Defined.





(** ** Messages the session cannot use *)

Lemma session_raise_ends env dev data e w :
  synced (manager w) ->
  on_message env dev data w = (Raise e, w) ->
  session_turn env dev (text data) w
  = (Ok false, set_manager (drop dev (manager w)) w).
Proof. intros H R. now apply session_turn_raised with (e := e). Qed.

(** X12. A message that is not a JSON object, and a [sync_offline_queue]
    message whose [operations] is null, a boolean or a number, raise inside
    the handler: the session ends, the device is unregistered, and nothing
    else changes. A JSON object whose [type] is none of the four message
    types (or is missing), and a [sync_offline_queue] message without
    [operations], are ignored: the state stays as it was and the session
    goes on. *)
Theorem unusable_messages env dev w :
  same_ids (manager w) ->
  let ended := (Ok false, set_manager (drop dev (manager w)) w) in
  (forall data,
      match data with JObj _ => False | _ => True end ->
      session_turn env dev (text data) w = ended)
  /\ (forall v,
        match v with
        | JNull | JBool _ | JInt _ | JFloat _ => True
        | _ => False
        end ->
        session_turn env dev
          (text (JObj [("type", JStr "sync_offline_queue"); ("operations", v)]))
          w = ended)
  /\ (forall kvs,
        let ty := get_default kvs "type" JNull in
        py_eq_str ty "register_device" = false ->
        py_eq_str ty "sync_request" = false ->
        py_eq_str ty "sync_offline_queue" = false ->
        py_eq_str ty "compute_request" = false ->
        session_turn env dev (text (JObj kvs)) w = (Ok true, w))
  /\ session_turn env dev (text (JObj [("type", JStr "sync_offline_queue")])) w
     = (Ok true, w).
Proof.
  intros H ended. apply synced_same_ids in H.
  split.
  { intros data D. apply session_raise_ends with (e := AttributeError);
      [exact H|]. destruct data; try reflexivity. destruct D. }
  split.
  { intros v D. apply session_raise_ends with (e := TypeError); [exact H|].
    destruct v; try reflexivity; destruct D. }
  split.
  { intros kvs ty A B C D. apply session_turn_ok.
    unfold on_message, bind, lift, py_get. fold (get_default kvs "type" JNull).
    fold ty. now rewrite A, B, C, D. }
  now apply session_turn_ok.
Qed.

Lemma unusable_messages_witness :
  same_ids (manager Demo.two_devices)
  /\ session_turn Demo.env "d1" (text (JList [])) Demo.two_devices
     = (Ok false,
        set_manager (drop "d1" (manager Demo.two_devices)) Demo.two_devices).
Proof.
  assert (H : same_ids (manager Demo.two_devices)).
  { intros d. vm_compute. tauto. }
  split; [exact H|].
  exact (proj1 (unusable_messages Demo.env "d1" Demo.two_devices H)
           (JList []) I).
Defined.

(** ** The square root of a compute request is always defined *)

Lemma binary_round_aux_sign mx ex lx :
  match binary_round_aux prec emax false mx ex lx with
  | S754_finite true _ _ | S754_infinity true => False
  | _ => True
  end.
Proof.
  unfold binary_round_aux.
  destruct (shr_fexp prec emax mx ex lx) as [mrs' e'].
  destruct (shr_fexp prec emax _ e' loc_Exact) as [mrs'' e''].
  destruct (shr_m mrs''); [exact I | | exact I].
  destruct (e'' <=? emax - prec); exact I.
Qed.

Lemma float_of_Z_sign z :
  0 <= z ->
  match float_of_Z z with
  | S754_finite true _ _ | S754_infinity true => False
  | _ => True
  end.
Proof.
  intros H. unfold float_of_Z, binary_normalize.
  destruct z as [|p|p]; [exact I | | lia].
  unfold binary_round.
  destruct (shl_align p 0 _) as [mz ez]. apply binary_round_aux_sign.
Qed.

(** X13. The argument [math.sqrt] receives in a compute request is
    [abs(value)], never a negative number: whenever [abs(value)] is defined,
    the square root is in its domain, so the compute branch cannot raise the
    [ValueError] of [math.sqrt]. *)
Theorem compute_sqrt_in_domain v f :
  py_abs_float v = Ok f ->
  math_sqrt f = Some (SFsqrt prec emax f)
  /\ sqrt_abs_times_100 v
     = Ok (SFmul prec emax (SFsqrt prec emax f) (float_of_Z 100)).
Proof.
  intros E. split; [|unfold sqrt_abs_times_100; now rewrite E].
  assert (S : match f with
              | S754_finite true _ _ | S754_infinity true => False
              | _ => True
              end).
  { destruct v as [|b|z|x|s|l|kvs]; simpl in E; try discriminate.
    - injection E as <-. apply float_of_Z_sign. destruct b; lia.
    - pose proof (float_of_Z_sign (Z.abs z) (Z.abs_nonneg z)) as P.
      destruct (float_of_Z (Z.abs z)) as [s0|s0| |s0 m e];
        try discriminate; injection E as <-; exact P.
    - injection E as <-. destruct x; exact I. }
  unfold math_sqrt. destruct f as [s0|[]| |[] m e]; try reflexivity; destruct S.
Qed.

Lemma compute_sqrt_in_domain_witness :
  py_abs_float (JInt (-25)) = Ok (float_of_Z 25)
  /\ math_sqrt (float_of_Z 25) = Some (float_of_Z 5).
Proof.
  assert (E : py_abs_float (JInt (-25)) = Ok (float_of_Z 25)) by reflexivity.
  split; [exact E|].
  exact (proj1 (compute_sqrt_in_domain (JInt (-25)) (float_of_Z 25) E)).
Defined.

(** ** An operation that raises has done nothing *)

Lemma py_eq_str_true v s : py_eq_str v s = true -> v = JStr s.
Proof.
  destruct v; simpl; try discriminate. intros E.
  apply String.eqb_eq in E. now subst.
Qed.

(** X14. On a manager whose maps agree, an operation of an offline batch
    that raises (no [type], no [record_id], no [data], data that is not an
    object, an id that is taken) has changed no row, no map of the manager,
    and has sent and broadcast nothing: whatever a batch did before the
    operation that ended it, that operation added nothing. *)
Theorem failed_operation_changes_nothing env dev op e w w' :
  same_ids (manager w) ->
  replay_op env dev op w = (Raise e, w') ->
  records w' = records w /\ manager w' = manager w
  /\ wire w' = wire w /\ broadcasts w' = broadcasts w.
Proof.
  intros H E0. apply synced_same_ids in H. generalize E0.
  unfold replay_op, bind at 1, lift.
  destruct (py_subscript op "type") as [ty|e0] eqn:T;
    [|intros [= _ <-]; auto].
  destruct (py_eq_str ty "create") eqn:C.
  { apply py_eq_str_true in C. subst ty.
    unfold bind at 1.
    destruct (py_subscript op "data") as [d|e0] eqn:D;
      [|intros [= _ <-]; auto].
    destruct d as [|b|z|x|s|l|kvs];
      try (unfold bind; simpl; intros [= _ <-]; auto).
    destruct (records w !! uuid4_at env (uuid_draws w)) as [x|] eqn:F.
    - unfold bind, py_get, insert_record, bind, uuid4, utcnow, add_commit.
      simpl. rewrite F. intros [= _ <-]. auto.
    - intros _. exfalso.
      rewrite (replay_create_run env dev op kvs w H T D F) in E0.
      discriminate. }
  destruct (py_eq_str ty "update") eqn:U.
  { apply py_eq_str_true in U. subst ty.
    unfold bind at 1.
    destruct (py_subscript op "record_id") as [rid|e0] eqn:I;
      [|intros [= _ <-]; auto].
    unfold bind at 1, query_first.
    destruct rid as [|b|z|x|s|l|kvs]; try (intros [= _ <-]; auto);
      try discriminate.
    destruct (records w !! s) as [r|] eqn:L; [|discriminate].
    unfold bind at 1.
    destruct (py_subscript op "data") as [d|e0] eqn:D;
      [|intros [= _ <-]; auto].
    destruct d as [|b|z|x|s0|l|kvs]; try (intros [= _ <-]; auto).
    intros _. exfalso.
    rewrite (replay_update_run env dev op s kvs r w H T I D L) in E0.
    discriminate. }
  destruct (py_eq_str ty "delete") eqn:X; [|discriminate].
  apply py_eq_str_true in X. subst ty.
  unfold bind at 1.
  destruct (py_subscript op "record_id") as [rid|e0] eqn:I;
    [|intros [= _ <-]; auto].
  unfold bind at 1, query_first.
  destruct rid as [|b|z|x|s|l|kvs]; try (intros [= _ <-]; auto);
    try discriminate.
  destruct (records w !! s) as [r|] eqn:L; [|discriminate].
  intros _. exfalso.
  rewrite (replay_delete_run env dev op s r w H T I L) in E0.
  discriminate.
Qed.

Lemma failed_operation_changes_nothing_witness :
  same_ids (manager Demo.two_devices)
  /\ replay_op Demo.env "d1" (JObj [("type", JStr "create")]) Demo.two_devices
     = (Raise (KeyError "data"), Demo.two_devices)
  /\ records Demo.two_devices = records Demo.two_devices.
Proof.
  assert (H : same_ids (manager Demo.two_devices)).
  { intros d. vm_compute. tauto. }
  assert (E : replay_op Demo.env "d1" (JObj [("type", JStr "create")])
                Demo.two_devices
              = (Raise (KeyError "data"), Demo.two_devices))
    by (vm_compute; reflexivity).
  split; [exact H|]. split; [exact E|].
  exact (proj1 (failed_operation_changes_nothing Demo.env "d1"
                  (JObj [("type", JStr "create")]) (KeyError "data")
                  Demo.two_devices Demo.two_devices H E)).
Defined.

(** ** The loop of a session *)

(** X15. Once a turn has ended the session, the loop reads no further
    message: what arrives after the message that ended it has no effect on
    the result or on the state. *)
Theorem session_loop_stops_at_end env dev l1 l2 w :
  fst (session_loop env dev l1 w) <> Ok true ->
  session_loop env dev (l1 ++ l2) w = session_loop env dev l1 w.
Proof.
  revert w. induction l1 as [|i l1 IH]; intros w N; simpl in *.
  - now destruct N.
  - unfold bind in *.
    destruct (session_turn env dev i w) as [[[]|e] w1]; [|reflexivity..].
    now apply IH.
Qed.

Lemma session_loop_stops_at_end_witness :
  fst (session_loop Demo.env "d1" [closed] Demo.two_devices) <> Ok true
  /\ session_loop Demo.env "d1"
       ([closed] ++ [text (compute_message "A")]) Demo.two_devices
     = session_loop Demo.env "d1" [closed] Demo.two_devices.
Proof.
  assert (N : fst (session_loop Demo.env "d1" [closed] Demo.two_devices)
              <> Ok true) by (vm_compute; discriminate).
  split; [exact N|].
  exact (session_loop_stops_at_end Demo.env "d1" [closed]
           [text (compute_message "A")] Demo.two_devices N).
Defined.

(** ** A device id used by two connections *)

Lemma websocket_endpoint_open_synced env ws d w :
  synced (manager w) ->
  synced (manager (snd (websocket_endpoint env ws true d [] w))).
Proof. intros H. now apply (websocket_endpoint_synced env ws true d []). Qed.

(** X16. [disconnect] goes by device id, not by socket. When a second
    connection is opened under an id whose first session is still running,
    and the first session then ends, the id is removed from both maps
    although the second connection is the one registered: no later
    broadcast makes a send to it. *)
Theorem first_session_end_drops_second_connection env ws1 ws2 d w :
  same_ids (manager w) ->
  let w1 := snd (websocket_endpoint env ws1 true d [] w) in
  let w2 := snd (websocket_endpoint env ws2 true d [] w1) in
  let w3 := snd (session_turn env d closed w2) in
  PyDict.get d (active_connections (manager w2)) = Some ws2 ->
  fst (session_turn env d closed w2) = Ok false
  /\ PyDict.get d (active_connections (manager w3)) = None
  /\ PyDict.get d (device_registry (manager w3)) = None
  /\ forall message ex f, In f (sweep_frames env message ex w3) -> to f <> d.
Proof.
  intros H w1 w2 w3 G. apply synced_same_ids in H.
  assert (S1 : synced (manager w1))
    by now apply websocket_endpoint_open_synced.
  assert (S2 : synced (manager w2))
    by now apply websocket_endpoint_open_synced.
  subst w3. rewrite (session_turn_closed env d w2 S2). simpl.
  split; [reflexivity|].
  split; [now rewrite get_remove, String.eqb_refl|].
  split; [now rewrite get_remove, String.eqb_refl|].
  intros message ex f If Hto.
  assert (T : In (to f)
                (map to (sweep_frames env message ex
                           (set_manager (drop d (manager w2)) w2))))
    by (apply in_map; exact If).
  rewrite sweep_receivers in T. apply filter_In in T as [T _].
  apply mem_In_keys in T. simpl in T.
  rewrite Hto, mem_remove, String.eqb_refl in T. discriminate.
Qed.

Lemma first_session_end_drops_second_connection_witness :
  same_ids (manager Demo.start)
  /\ PyDict.get "d1"
       (active_connections
          (manager
             (snd (websocket_endpoint Demo.env 2%nat true "d1" []
                     (snd (websocket_endpoint Demo.env 1%nat true "d1" []
                             Demo.start))))))
     = Some 2%nat
  /\ fst (session_turn Demo.env "d1" closed
            (snd (websocket_endpoint Demo.env 2%nat true "d1" []
                    (snd (websocket_endpoint Demo.env 1%nat true "d1" []
                            Demo.start)))))
     = Ok false.
Proof.
  assert (G : PyDict.get "d1"
                (active_connections
                   (manager
                      (snd (websocket_endpoint Demo.env 2%nat true "d1" []
                              (snd (websocket_endpoint Demo.env 1%nat true
                                      "d1" [] Demo.start))))))
              = Some 2%nat) by (vm_compute; reflexivity).
  split; [exact start_same_ids|]. split; [exact G|].
  exact (proj1 (first_session_end_drops_second_connection Demo.env 1%nat 2%nat
                  "d1" Demo.start start_same_ids G)).
Defined.

(** ** Whom the handlers exclude from their broadcasts *)

Lemma excluding_log_only x w0 : log_only (excluding_since x w0).
Proof. intros w w' E (l & a & b). exists l. now rewrite E. Qed.

Lemma excluding_refl x w : excluding_since x w w.
Proof. exists []. split; [now rewrite app_nil_r | constructor]. Qed.

Lemma broadcast_excluding env x w0 message :
  preserves (excluding_since x w0) (broadcast env message x).
Proof.
  intros w (l & a & b). exists (l ++ [(message, x)])%list.
  rewrite broadcast_logged, a, app_assoc. split; [reflexivity|].
  apply Forall_app. split; [exact b|]. now constructor.
Qed.

Ltac excluding_prim env x w0 :=
  first
    [ apply (broadcast_excluding env x w0)
    | apply (utcnow_pres env _ (log_only_hub_only _ (excluding_log_only x w0)))
    | apply (uuid4_pres env _ (log_only_hub_only _ (excluding_log_only x w0)))
    | apply query_first_pres
    | apply query_all_pres
    | apply (add_commit_pres _ (log_only_hub_only _ (excluding_log_only x w0)))
    | apply (commit_pres _ (log_only_hub_only _ (excluding_log_only x w0)))
    | apply (delete_commit_pres _
               (log_only_hub_only _ (excluding_log_only x w0)))
    | apply (disconnect_log _ (excluding_log_only x w0))
    | apply (register_device_log _ (excluding_log_only x w0))
    | apply (send_personal_message_log env _ (excluding_log_only x w0)) ].

(** X17. Every broadcast a REST handler makes has no excluded device, and
    every broadcast made while a message of device [dev] is handled has
    [dev] as its excluded device, whatever the payload or message and
    whether the handler returns or raises. *)
Theorem handlers_exclude_the_sender env w :
  (forall payload, excluding_since None w (snd (create_data env payload w)))
  /\ (forall rid payload,
         excluding_since None w (snd (update_data env rid payload w)))
  /\ (forall rid, excluding_since None w (snd (delete_data env rid w)))
  /\ (forall dev i,
         excluding_since (Some dev) w (snd (session_turn env dev i w))).
Proof.
  split.
  { intros payload.
    assert (P : preserves (excluding_since None w) (create_data env payload)).
    { unfold create_data, insert_record.
      handler_pres ltac:(excluding_prim env (@None string) w). }
    apply P, excluding_refl. }
  split.
  { intros rid payload.
    assert (P : preserves (excluding_since None w)
                  (update_data env rid payload)).
    { unfold update_data.
      handler_pres ltac:(excluding_prim env (@None string) w). }
    apply P, excluding_refl. }
  split.
  { intros rid.
    assert (P : preserves (excluding_since None w) (delete_data env rid)).
    { unfold delete_data.
      handler_pres ltac:(excluding_prim env (@None string) w). }
    apply P, excluding_refl. }
  intros dev i.
  assert (R : forall op,
             preserves (excluding_since (Some dev) w) (replay_op env dev op)).
  { intros op. unfold replay_op, insert_record.
    handler_pres ltac:(excluding_prim env (Some dev) w). }
  assert (P : preserves (excluding_since (Some dev) w)
                (session_turn env dev i)).
  { unfold session_turn, receive_json, on_message, sync_request,
      sync_offline_queue, compute_request.
    handler_pres ltac:(first [excluding_prim env (Some dev) w | apply R]). }
  apply P, excluding_refl.
Qed.

(** ** Repeating a compute request *)


